(** * Alpha tuning with the Koda retriever: the example notebook

    A shallow embedding of
    [llama-index-packs/llama-index-packs-koda-retriever/examples/alpha_tuning.ipynb].

    The notebook is straight-line Python.  Its data (the [categories]
    dictionary, the query string, the recorded cell outputs) is embedded as
    Python values; its code cells are embedded as programs of a small
    state-and-exception monad whose only effects are calls into the
    libraries the notebook imports and the allocation of the one mutable
    object the notebook builds itself, the [categories] dictionary. *)

From Stdlib Require Import Floats.PrimFloat.
From Corelib Require Floats.SpecFloat Floats.FloatOps Floats.FloatAxioms.
From stdpp Require Import base option list strings gmap.

#[local] Set Warnings "-inexact-float,-register-all".
#[local] Open Scope string_scope.

(** ** Python values *)

(** Addresses of the mutable objects the notebook allocates. *)
Definition loc := nat.

(** The Python values that occur in the notebook.  A [float] is a binary64
    number, as in CPython; a dictionary keeps its items in insertion order
    and its keys are strings (the only keys the notebook uses).  [VRef] is
    a reference to a mutable object of the store, [VObj] an opaque handle
    to an object owned by an imported library. *)
Inductive PyVal : Type :=
| VNone
| VBool (b : bool)
| VInt (z : Z)
| VFloat (f : float)
| VStr (s : string)
| VList (items : list PyVal)
| VDict (items : list (string * PyVal))
| VRef (l : loc)
| VObj (h : nat).

(** [d[k] = v] on an insertion-ordered dictionary: an existing key keeps
    its place and takes the new value, a new key goes last. *)
Fixpoint dict_set (k : string) (v : PyVal) (d : list (string * PyVal))
  : list (string * PyVal) :=
  match d with
  | [] => [(k, v)]
  | (k', v') :: d' =>
      if String.eqb k' k then (k', v) :: d' else (k', v') :: dict_set k v d'
  end.

(** A dictionary display [{k1: v1, ..., kn: vn}]: the items are inserted
    from left to right. *)
Definition dict_display (items : list (string * PyVal)) : PyVal :=
  VDict (fold_left (fun d kv => dict_set kv.1 kv.2 d) items []).

Fixpoint assoc_get (k : string) (d : list (string * PyVal)) : option PyVal :=
  match d with
  | [] => None
  | (k', v) :: d' => if String.eqb k' k then Some v else assoc_get k d'
  end.

(** [d.get(k)]; [None] also when [d] is not a dictionary. *)
Definition dict_get (k : string) (d : PyVal) : option PyVal :=
  match d with
  | VDict items => assoc_get k items
  | _ => None
  end.

(** [list(d.items())] and [list(d.keys())]. *)
Definition dict_items (d : PyVal) : list (string * PyVal) :=
  match d with
  | VDict items => items
  | _ => []
  end.

Definition dict_keys (d : PyVal) : list string := (dict_items d).*1.

Definition has_key (k : string) (d : PyVal) : bool :=
  match dict_get k d with Some _ => true | None => false end.

(** A Python number [a] with [0 <= a <= 1] ([True] and [False] are the
    integers 1 and 0). *)
Definition in_unit_interval (a : PyVal) : bool :=
  match a with
  | VBool _ => true
  | VInt z => (0 <=? z)%Z && (z <=? 1)%Z
  | VFloat f => PrimFloat.leb 0 f && PrimFloat.leb f 1
  | _ => false
  end.

Definition is_str (v : PyVal) : bool :=
  match v with VStr _ => true | _ => false end.

(** A non-empty list of strings (the comment of the cell asks for at least
    one example). *)
Definition is_examples (v : PyVal) : bool :=
  match v with
  | VList (x :: xs) => forallb is_str (x :: xs)
  | _ => false
  end.

(** ** The category table (code cell 3, [categories = {...}]) *)

Definition categories_display : PyVal :=
  dict_display
    [ ("concept seeking query",
       dict_display
         [ ("alpha", VFloat 0.2);
           ("description",
            VStr "Abstract questions, usually on a specific topic, that require multiple sentences to answer");
           ("examples",
            VList
              [ VStr "What is the dual-encoder architecture used in recent works on dense retrievers?";
                VStr "Why should I use semantic search to rank results?" ]) ]);
      ("fact seeking query",
       dict_display
         [ ("alpha", VFloat 0.6);
           ("description", VStr "Queries with a single, clear answer");
           ("examples",
            VList
              [ VStr "What is the total number of propositions the English Wikipedia dump is segmented into in FACTOID WIKI?";
                VStr "How many documents are semantically ranked?" ]) ]);
      ("queries with misspellings",
       dict_display
         [ ("alpha", VInt 1);
           ("description",
            VStr "Queries with typos, transpositions and common misspellings introduced");
           ("examples",
            VList
              [ VStr "What is the advntage of prposition retrieval over sentnce or passage retrieval?";
                VStr "Ho w mny documents are samantically r4nked" ]) ]) ].

(** The alpha of every category, in the order of the table. *)
Definition alphas (table : PyVal) : list (string * option PyVal) :=
  map (fun kv => (kv.1, dict_get "alpha" kv.2)) (dict_items table).

(** An entry is well formed when it has an alpha and has a description
    exactly when it has examples. *)
Definition entry_wf (entry : PyVal) : bool :=
  has_key "alpha" entry
  && Bool.eqb (has_key "description" entry) (has_key "examples" entry).

(** An entry that can serve as few-shot context: a description string and a
    non-empty list of example strings. *)
Definition entry_few_shot (entry : PyVal) : bool :=
  match dict_get "description" entry, dict_get "examples" entry with
  | Some d, Some e => is_str d && is_examples e
  | _, _ => false
  end.


(** ** The recorded output of the retrieval cell

    The notebook file keeps the [repr] of [results] as the output of code
    cell 5: two [NodeWithScore] objects.  The records below carry the
    fields that the [repr] shows. *)

Definition newline : string := String (Ascii.ascii_of_nat 10) EmptyString.

Record TextNode : Type := {
  id_ : string;
  embedding : option (list float);
  metadata : list (string * PyVal);
  excluded_embed_metadata_keys : list string;
  excluded_llm_metadata_keys : list string;
  relationships : list (string * PyVal);
  text : string;
  start_char_idx : option Z;
  end_char_idx : option Z;
  text_template : string;
  metadata_template : string;
  metadata_seperator : string
}.

Record NodeWithScore : Type := {
  node : TextNode;
  score : float
}.

Definition recorded_results : list NodeWithScore :=
  [ {| node :=
         {| id_ := "33";
            embedding := None;
            metadata :=
              [ ("box-office", VFloat 1113138548.0);
                ("title", VStr "Jurassic Park");
                ("year", VFloat 1993.0) ];
            excluded_embed_metadata_keys := [];
            excluded_llm_metadata_keys := [];
            relationships := [];
            text := "A theme park showcasing genetically engineered dinosaurs turns into a nightmare when the creatures escape their enclosures, forcing the visitors to fight for survival.";
            start_char_idx := None;
            end_char_idx := None;
            text_template := "{metadata_str}" ++ newline ++ newline ++ "{content}";
            metadata_template := "{key}: {value}";
            metadata_seperator := newline |};
       score := 8.0 |};
    {| node :=
         {| id_ := "7";
            embedding := None;
            metadata :=
              [ ("box-office", VFloat 1671537444.0);
                ("title", VStr "Jurassic World");
                ("year", VFloat 2015.0) ];
            excluded_embed_metadata_keys := [];
            excluded_llm_metadata_keys := [];
            relationships := [];
            text := "Set in a fully functioning dinosaur theme park on Isla Nublar, Jurassic World faces chaos when a genetically engineered dinosaur, the Indominus Rex, escapes. Stars Chris Pratt and Bryce Dallas Howard.";
            start_char_idx := None;
            end_char_idx := None;
            text_template := "{metadata_str}" ++ newline ++ newline ++ "{content}";
            metadata_template := "{key}: {value}";
            metadata_seperator := newline |};
       score := 7.0 |} ].

(** The (content, relevance score) pairs of a result list. *)
Definition content_scores (rs : list NodeWithScore) : list (string * float) :=
  map (fun r => (text (node r), score r)) rs.

(** A list of scores is ranked when no score is followed by a larger one. *)
Fixpoint non_increasing (scores : list float) : bool :=
  match scores with
  | [] => true
  | x :: rest =>
      match rest with
      | [] => true
      | y :: _ => PrimFloat.leb y x && non_increasing rest
      end
  end.

(** A similarity normalised to the unit interval. *)
Definition normalized (s : float) : bool :=
  PrimFloat.leb 0 s && PrimFloat.leb s 1.

(** ** Calls into the imported libraries *)

(** What the notebook asks of the modules it imports: a call of a function,
    constructor or class method with positional and keyword arguments
    ([OCall]), a method call on an object ([OMethod]), and the assignment
    and the reading of an attribute of an imported object ([OSetAttr],
    [OGetAttr]; the notebook does both to [Settings]). *)
Inductive Op : Type :=
| OCall (callee : string) (args : list PyVal) (kwargs : list (string * PyVal))
| OMethod (self : PyVal) (method : string) (args : list PyVal)
    (kwargs : list (string * PyVal))
| OSetAttr (object attr : string) (v : PyVal)
| OGetAttr (object attr : string).

(** A call returns a value or raises an exception. *)
Inductive Outcome : Type :=
| Returns (v : PyVal)
| Raises (exn : PyVal).

(** The store of the mutable objects the notebook itself builds.  The
    [categories] dictionary is the only one; it is stored whole (the inner
    dictionaries and lists of the display are not given addresses of their
    own, so a write to any of them is a write at the address of the
    table). *)
Abbreviation Store := (gmap loc PyVal).

(** The addresses a value mentions. *)
Fixpoint refs (v : PyVal) : gset loc :=
  match v with
  | VRef l => {[ l ]}
  | VList items => ⋃ (map refs items)
  | VDict items => ⋃ (map (fun kv => match kv with (_, x) => refs x end) items)
  | _ => ∅
  end.

Definition refs_list (vs : list PyVal) : gset loc := ⋃ (map refs vs).

Definition refs_kwargs (kwargs : list (string * PyVal)) : gset loc :=
  ⋃ (map (fun kv => refs kv.2) kwargs).

(** The addresses a call hands over. *)
Definition refs_op (op : Op) : gset loc :=
  match op with
  | OCall _ args kwargs => refs_list args ∪ refs_kwargs kwargs
  | OMethod self _ args kwargs => refs self ∪ refs_list args ∪ refs_kwargs kwargs
  | OSetAttr _ _ v => refs v
  | OGetAttr _ _ => ∅
  end.

Definition refs_outcome (out : Outcome) : gset loc :=
  match out with
  | Returns v => refs v
  | Raises exn => refs exn
  end.

(** The imported libraries are not part of the notebook.  They are a
    parameter: a library has a state of its own ([World]: the remote index,
    the language model, the objects it hands out) and answers every call
    with an outcome, a new state and a store.  Python passes objects by
    reference: a library is shown the objects whose addresses it has come
    to know, and may leave them changed. *)
Definition Library (World : Type) : Type :=
  Op -> World -> Store -> Outcome * World * Store.

(** The part of the store that is behind the addresses of [known]. *)
Definition visible (known : gset loc) (st : Store) : Store :=
  filter (fun kv => kv.1 ∈ known) st.

(** The store after a call: an object whose address the library knows
    takes the value the library left, every other object keeps its own.
    No object is lost, and none appears. *)
Definition write_back (known : gset loc) (st st_lib : Store) : Store :=
  map_imap
    (fun l v => Some (if decide (l ∈ known) then default v (st_lib !! l) else v))
    st.

(** What a run leaves behind, in order. *)
Inductive Event : Type :=
| EvAlloc (l : loc) (v : PyVal)
| EvCall (op : Op) (before : Store) (out : Outcome) (after : Store).

Definition is_alloc (ev : Event) : bool :=
  match ev with EvAlloc _ _ => true | EvCall _ _ _ _ => false end.

(** The call of the function or constructor [name]. *)
Definition is_call (name : string) (ev : Event) : bool :=
  match ev with
  | EvCall (OCall callee _ _) _ _ _ => String.eqb callee name
  | _ => false
  end.

(** The call of the method [name], on any object. *)
Definition is_method (name : string) (ev : Event) : bool :=
  match ev with
  | EvCall (OMethod _ method _ _) _ _ _ => String.eqb method name
  | _ => false
  end.

(** The event leaves the object at [l] as it found it, equal to [v]. *)
Definition keeps (l : loc) (v : PyVal) (ev : Event) : Prop :=
  match ev with
  | EvAlloc l' _ => l' ≠ l
  | EvCall _ before _ after => before !! l = Some v ∧ after !! l = Some v
  end.

(** ** The monad of the cells *)

(** The state of a run: the state of the libraries, the store, the
    addresses that have passed between the notebook and the libraries, and
    the events so far. *)
Record Env (World : Type) : Type := mkEnv {
  world : World;
  store : Store;
  seen : gset loc;
  trace : list Event
}.
Arguments mkEnv {World} _ _ _ _.
Arguments world {World} _.
Arguments store {World} _.
Arguments seen {World} _.
Arguments trace {World} _.

(** A cell stops at the first exception. *)
Inductive Res (A : Type) : Type :=
| Ok (a : A)
| Err (exn : PyVal).
Arguments Ok {A} _.
Arguments Err {A} _.

Definition is_ok {A : Type} (r : Res A) : bool :=
  match r with Ok _ => true | Err _ => false end.

Definition M (World A : Type) : Type := Env World -> Res A * Env World.

#[export] Instance M_ret (World : Type) : MRet (M World) :=
  fun A a e => (Ok a, e).

#[export] Instance M_bind (World : Type) : MBind (M World) :=
  fun A B k m e =>
    match m e with
    | (Ok a, e') => k a e'
    | (Err exn, e') => (Err exn, e')
    end.

(** [m], started in [e], ends in a result and a state that satisfy [Q]. *)
Definition ends {World A : Type} (m : M World A) (e : Env World)
  (Q : Res A → Env World → Prop) : Prop :=
  Q (m e).1 (m e).2.

(** The result of a call with the outcome [out]. *)
Definition res_of (out : Outcome) : Res PyVal :=
  match out with
  | Returns v => Ok v
  | Raises exn => Err exn
  end.

Section Cells.
Context {World : Type}.
Variable environ : gmap string string.
Variable lib : Library World.

(** [os.environ.get(name)]: the value of the variable, or [None]. *)
Definition environ_get (name : string) : PyVal :=
  match environ !! name with
  | Some v => VStr v
  | None => VNone
  end.

(** A call into a library, recorded with the store before and after it.
    The library learns the addresses among the arguments, and the notebook
    those of the outcome.  (No value of the store of this notebook
    mentions an address, so the addresses of the arguments are all that a
    call hands over.) *)
Definition call (op : Op) : M World PyVal :=
  fun e =>
    let known := seen e ∪ refs_op op in
    match lib op (world e) (visible known (store e)) with
    | (out, w', st_lib) =>
        let st' := write_back known (store e) st_lib in
        let e' :=
          mkEnv w' st' (known ∪ refs_outcome out)
            (trace e ++ [EvCall op (store e) out st']) in
        match out with
        | Returns v => (Ok v, e')
        | Raises exn => (Err exn, e')
        end
    end.

(** A new mutable object, at an address that is not in use and that no
    value has mentioned. *)
Definition alloc (v : PyVal) : M World PyVal :=
  fun e =>
    let l := fresh (dom (store e) ∪ seen e) in
    (Ok (VRef l),
     mkEnv (world e) (<[l := v]> (store e)) (seen e) (trace e ++ [EvAlloc l v])).

(** Code cell 2: the vector index, the models and the reranker. *)
Definition cell_setup : M World (PyVal * PyVal) :=
  pc ← call (OCall "Pinecone" [] [("api_key", environ_get "PINECONE_API_KEY")]);
  index ← call (OMethod pc "Index" [VStr "sample-movies"] []);
  llm ← call (OCall "OpenAI" [] []);
  _ ← call (OSetAttr "Settings" "llm" llm);
  embed_model ← call (OCall "OpenAIEmbedding" [] []);
  _ ← call (OSetAttr "Settings" "embed_model" embed_model);
  vector_store ←
    call (OCall "PineconeVectorStore" []
            [("pinecone_index", index); ("text_key", VStr "summary")]);
  settings_embed_model ← call (OGetAttr "Settings" "embed_model");
  vector_index ←
    call (OCall "VectorStoreIndex.from_vector_store" []
            [("vector_store", vector_store);
             ("embed_model", settings_embed_model)]);
  settings_llm ← call (OGetAttr "Settings" "llm");
  reranker ← call (OCall "LLMRerank" [] [("llm", settings_llm)]);
  mret (vector_index, reranker).

(** Code cell 3: [categories = {...}]. *)
Definition cell_categories : M World PyVal :=
  alloc categories_display.

(** Code cell 4: [retriever = KodaRetriever(...)]. *)
Definition cell_build (vector_index reranker categories : PyVal)
  : M World PyVal :=
  settings_llm ← call (OGetAttr "Settings" "llm");
  call (OCall "KodaRetriever" []
          [("index", vector_index);
           ("llm", settings_llm);
           ("matrix", categories);
           ("reranker", reranker);
           ("verbose", VBool true)]).

Definition query_text : string :=
  "Can you explain the Jurassic Park as a business as it was supposed to operate inside the movie's lore or timeline?".

(** Code cell 5: [results = retriever.retrieve(query)]. *)
Definition cell_retrieve (retriever : PyVal) : M World (PyVal * PyVal) :=
  let query := VStr query_text in
  results ← call (OMethod retriever "retrieve" [query] []);
  mret (query, results).

(** Code cell 6: the query engine, its answer and the answer as text. *)
Definition cell_query_engine (retriever query : PyVal)
  : M World (PyVal * PyVal * PyVal) :=
  query_engine ←
    call (OCall "RetrieverQueryEngine.from_args" [] [("retriever", retriever)]);
  response ← call (OMethod query_engine "query" [query] []);
  shown ← call (OCall "str" [response] []);
  mret (query_engine, response, shown).

(** The global names the notebook has bound when all cells have run. *)
Record Globals : Type := {
  g_vector_index : PyVal;
  g_reranker : PyVal;
  g_categories : PyVal;
  g_retriever : PyVal;
  g_query : PyVal;
  g_results : PyVal;
  g_query_engine : PyVal;
  g_response : PyVal;
  g_shown : PyVal
}.

(** The code cells from top to bottom.  Code cell 1 only imports; the
    display of the last expression of a cell is the work of the kernel and
    leaves no event. *)
Definition notebook : M World Globals :=
  '(vector_index, reranker) ← cell_setup;
  categories ← cell_categories;
  retriever ← cell_build vector_index reranker categories;
  '(query, results) ← cell_retrieve retriever;
  '(query_engine, response, shown) ← cell_query_engine retriever query;
  mret {| g_vector_index := vector_index;
          g_reranker := reranker;
          g_categories := categories;
          g_retriever := retriever;
          g_query := query;
          g_results := results;
          g_query_engine := query_engine;
          g_response := response;
          g_shown := shown |}.

(** A run in a fresh kernel: nothing allocated, nothing recorded. *)
Definition run (w0 : World) : Res Globals * Env World :=
  notebook (mkEnv w0 ∅ ∅ []).

Definition completed (w0 : World) : bool := is_ok (run w0).1.

Definition events (w0 : World) : list Event := trace (run w0).2.

End Cells.

(** ** Libraries to run the notebook against *)

(** An environment in which the key of the vector database is set. *)
Definition key_set : gmap string string :=
  {[ "PINECONE_API_KEY" := "0000-sample-key" ]}.

(** A library that answers every call with a new opaque object and touches
    nothing of the notebook; its state counts the objects handed out. *)
Definition handles_lib : Library nat :=
  fun _ w st => (Returns (VObj w), S w, st).

(** A library whose vector database client cannot be built (a missing or
    refused key, say): the constructor raises and every other call answers
    as [handles_lib] does. *)
Definition refusing_lib : Library nat :=
  fun op w st =>
    match op with
    | OCall callee _ _ =>
        if String.eqb callee "Pinecone"
        then (Raises (VStr "PineconeConfigurationError"), w, st)
        else handles_lib op w st
    | _ => handles_lib op w st
    end.

(** A library whose retriever constructor empties the dictionary it is
    given as [matrix] (Python hands over the object, not a copy). *)
Definition meddling_lib : Library nat :=
  fun op w st =>
    match op with
    | OCall callee _ kwargs =>
        match String.eqb callee "KodaRetriever", assoc_get "matrix" kwargs with
        | true, Some (VRef l) => (Returns (VObj w), S w, <[l := VDict []]> st)
        | _, _ => handles_lib op w st
        end
    | _ => handles_lib op w st
    end.

(** Modelled from the spec: the operations of the retriever pack (its
    constructor, [retrieve], the query engine built on it) are not among
    the sources; the spec has the category table "constructed once per
    process and treated as immutable configuration".  A library that
    treats what it is given so leaves the store of the notebook as it
    found it, at every call. *)
Definition read_only {World : Type} (lib : Library World) : Prop :=
  ∀ op w st, (lib op w st).2 = st.

(** ** The alpha resolver and the classifier *)

(** The spec's category table: a category name is mapped to a record with
    an alpha, an optional description and an optional list of examples. *)
Record CategoryEntry : Type := {
  alpha : PyVal;
  description : option string;
  examples : option (list string)
}.

Abbreviation CategoryTable := (list (string * CategoryEntry)).

Fixpoint table_get (label : string) (table : CategoryTable)
  : option CategoryEntry :=
  match table with
  | [] => None
  | (k, entry) :: rest =>
      if String.eqb k label then Some entry else table_get label rest
  end.

Definition labels (table : CategoryTable) : list string := table.*1.

(** The strings of a list of Python strings; [None] when an item is not a
    string. *)
Fixpoint strings_of (items : list PyVal) : option (list string) :=
  match items with
  | [] => Some []
  | VStr s :: rest => cons s <$> strings_of rest
  | _ :: _ => None
  end.

(** An entry of the notebook's dictionary read as a record; [None] when it
    has no alpha. *)
Definition entry_of_dict (d : PyVal) : option CategoryEntry :=
  a ← dict_get "alpha" d;
  Some {| alpha := a;
          description :=
            match dict_get "description" d with
            | Some (VStr s) => Some s
            | _ => None
            end;
          examples :=
            match dict_get "examples" d with
            | Some (VList items) => strings_of items
            | _ => None
            end |}.

Fixpoint entries_of (items : list (string * PyVal)) : option CategoryTable :=
  match items with
  | [] => Some []
  | (k, d) :: rest =>
      entry ← entry_of_dict d;
      table ← entries_of rest;
      Some ((k, entry) :: table)
  end.

Definition table_of_dict (d : PyVal) : option CategoryTable :=
  entries_of (dict_items d).

Inductive ResolverError : Type :=
| ConfigurationError (label : string).

(** Modelled from the spec: the alpha resolver of the retriever pack is not
    among the sources.  The spec has it "a pure function table lookup" that
    "maps a category label to a blend weight" and "fails with a
    configuration error if a label has no entry". *)
Definition resolve_alpha (table : CategoryTable) (label : string)
  : ResolverError + PyVal :=
  match table_get label table with
  | Some entry => inr (alpha entry)
  | None => inl (ConfigurationError label)
  end.

Section Classifier.
(** The model behind the classifier: the labels it finds fitting for a
    query, given the labels on offer. *)
Variable fitting : string -> list string -> list string.
Variable default_category : string.

(** The fitting labels that are labels of the table. *)
Definition candidates (query : string) (table : CategoryTable) : list string :=
  filter (fun l => l ∈ labels table) (fitting query (labels table)).

(** A query is ambiguous when it does not single out one label. *)
Definition ambiguous (query : string) (table : CategoryTable) : bool :=
  match candidates query table with
  | [_] => false
  | _ => true
  end.

Inductive ClassifierError : Type :=
| AmbiguousQuery (query : string).

(** Modelled from the spec: the classifier of the retriever pack is not
    among the sources.  The spec has it, "given a query and the category
    table", return "a category label", and "on ambiguous input" return "a
    default category rather than erroring". *)
Definition classify (query : string) (table : CategoryTable)
  : ClassifierError + string :=
  match candidates query table with
  | [l] => inr l
  | _ => inr default_category
  end.

End Classifier.

(** The table of the notebook as the resolver and the classifier take it. *)
Definition notebook_table : CategoryTable :=
  default [] (table_of_dict categories_display).

(** A model that finds every label fitting, whatever the query. *)
Definition undecided : string -> list string -> list string :=
  fun _ offered => offered.

(** ** What the events of a run are asked *)

(** The value of a keyword argument of a call. *)
Definition keyword (k : string) (ev : Event) : option PyVal :=
  match ev with
  | EvCall (OCall _ _ kwargs) _ _ _ => assoc_get k kwargs
  | _ => None
  end.

Definition keywords (ev : Event) : list string :=
  match ev with
  | EvCall (OCall _ _ kwargs) _ _ _ => kwargs.*1
  | _ => []
  end.

Definition store_before (ev : Event) : Store :=
  match ev with
  | EvCall _ before _ _ => before
  | EvAlloc _ _ => ∅
  end.

Definition is_set (object attr : string) (ev : Event) : bool :=
  match ev with
  | EvCall (OSetAttr o a _) _ _ _ => String.eqb o object && String.eqb a attr
  | _ => false
  end.

Definition is_get (object attr : string) (ev : Event) : bool :=
  match ev with
  | EvCall (OGetAttr o a) _ _ _ => String.eqb o object && String.eqb a attr
  | _ => false
  end.

(** What an event is, by name. *)
Definition event_name (ev : Event) : string :=
  match ev with
  | EvAlloc _ _ => "{...}"
  | EvCall (OCall callee _ _) _ _ _ => callee
  | EvCall (OMethod _ method _ _) _ _ _ => "." ++ method
  | EvCall (OSetAttr object attr _) _ _ _ => object ++ "." ++ attr ++ " ="
  | EvCall (OGetAttr object attr) _ _ _ => object ++ "." ++ attr
  end.

(** The retriever is built once, and its [matrix] argument is the address
    of a dictionary that, as the call starts, is the one the display
    built. *)
Definition built_on_table (evs : list Event) : Prop :=
  ∃ ev l,
    List.filter (is_call "KodaRetriever") evs = [ev]
    ∧ keyword "matrix" ev = Some (VRef l)
    ∧ store_before ev !! l = Some categories_display.

(** The retriever is given an index, a language model, the table, a
    reranker and the verbosity, and nothing else; the language model is
    what [Settings.llm] holds, and the one value assigned to [Settings.llm]
    is a stock [OpenAI()]. *)
Definition stock_model_only (evs : list Event) : Prop :=
  ∃ ev llm held b1 a1 b2 o2 a2 g1 b3 a3,
    List.filter (is_call "KodaRetriever") evs = [ev]
    ∧ keywords ev = ["index"; "llm"; "matrix"; "reranker"; "verbose"]
    ∧ List.filter (is_call "OpenAI") evs
      = [EvCall (OCall "OpenAI" [] []) b1 (Returns llm) a1]
    ∧ List.filter (is_set "Settings" "llm") evs
      = [EvCall (OSetAttr "Settings" "llm" llm) b2 o2 a2]
    ∧ List.filter (is_get "Settings" "llm") evs
      = [g1; EvCall (OGetAttr "Settings" "llm") b3 (Returns held) a3]
    ∧ keyword "llm" ev = Some held.

(** The reranker the retriever is given is the one [LLMRerank] built. *)
Definition reranker_supplied (evs : list Event) : Prop :=
  ∃ ev llm reranker b1 a1,
    List.filter (is_call "LLMRerank") evs
    = [EvCall (OCall "LLMRerank" [] [("llm", llm)]) b1 (Returns reranker) a1]
    ∧ List.filter (is_call "KodaRetriever") evs = [ev]
    ∧ keyword "reranker" ev = Some reranker.

(** One call of [retrieve], one call of [query], on the same string. *)
Definition one_retrieval_one_query (evs : list Event) : Prop :=
  ∃ q retriever engine b1 o1 a1 b2 o2 a2,
    List.filter (is_method "retrieve") evs
    = [EvCall (OMethod retriever "retrieve" [VStr q] []) b1 o1 a1]
    ∧ List.filter (is_method "query") evs
      = [EvCall (OMethod engine "query" [VStr q] []) b2 o2 a2]
    ∧ q = query_text.

(** The one call of the [Pinecone] constructor takes as [api_key] what
    [os.environ] holds for [PINECONE_API_KEY]: the string, or [None]. *)
Definition key_from_environment (environ : gmap string string)
  (evs : list Event) : Prop :=
  ∃ b o a,
    List.filter (is_call "Pinecone") evs
    = [EvCall
         (OCall "Pinecone" []
            [("api_key",
              from_option VStr VNone (environ !! "PINECONE_API_KEY"))])
         b o a]
    ∧ List.head evs = List.head (List.filter (is_call "Pinecone") evs).

(** The events that follow the first allocation. *)
Fixpoint after_alloc (evs : list Event) : list Event :=
  match evs with
  | [] => []
  | ev :: rest => if is_alloc ev then rest else after_alloc rest
  end.

(** The table is built once, at [l]; every event after that leaves it as
    it is; the run ends with a store that holds the table and nothing
    else, and with [categories] bound to its address. *)
Definition table_kept {World : Type} (r : Res Globals * Env World) : Prop :=
  ∃ l,
    List.filter is_alloc (trace r.2) = [EvAlloc l categories_display]
    ∧ Forall (keeps l categories_display) (after_alloc (trace r.2))
    ∧ event_name <$> after_alloc (trace r.2)
      = ["Settings.llm"; "KodaRetriever"; ".retrieve";
         "RetrieverQueryEngine.from_args"; ".query"; "str"]
    ∧ store r.2 = {[ l := categories_display ]}
    ∧ g_categories <$> (match r.1 with Ok g => Some g | Err _ => None end)
      = Some (VRef l).

(** Scores ranked by position: an earlier score is at least a later one. *)
Definition ranked (scores : list float) : Prop :=
  ∀ i j x y,
    (i ≤ j)%nat → scores !! i = Some x → scores !! j = Some y →
    PrimFloat.leb y x = true.

(** ** Results as Python values *)

(** A recorded node as the value a library hands back: its fields, under
    the names the [repr] shows. *)
Definition node_value (n : TextNode) : PyVal :=
  VDict
    [ ("id_", VStr (id_ n));
      ("embedding",
       match embedding n with
       | Some xs => VList (VFloat <$> xs)
       | None => VNone
       end);
      ("metadata", VDict (metadata n));
      ("excluded_embed_metadata_keys",
       VList (VStr <$> excluded_embed_metadata_keys n));
      ("excluded_llm_metadata_keys",
       VList (VStr <$> excluded_llm_metadata_keys n));
      ("relationships", VDict (relationships n));
      ("text", VStr (text n));
      ("start_char_idx", from_option VInt VNone (start_char_idx n));
      ("end_char_idx", from_option VInt VNone (end_char_idx n));
      ("text_template", VStr (text_template n));
      ("metadata_template", VStr (metadata_template n));
      ("metadata_seperator", VStr (metadata_seperator n)) ].

Definition scored_value (r : NodeWithScore) : PyVal :=
  VDict [ ("node", node_value (node r)); ("score", VFloat (score r)) ].

Definition results_value (rs : list NodeWithScore) : PyVal :=
  VList (scored_value <$> rs).

(** ** The retriever pack *)

(** The pack behind [KodaRetriever], the reranker and the query engine are
    code of the repository that is not among the sources.  This part
    follows the spec: a classifier, an alpha resolver and an invoker that
    asks an external index once and passes what it finds through the
    reranker when one is supplied; "no state retained between calls beyond
    the static category table". *)

(** A score that compares with itself (every float but NaN). *)
Definition is_number (s : float) : bool := PrimFloat.leb s s.

(** [x] goes before the first result that does not score above it. *)
Fixpoint insert_ranked (x : NodeWithScore) (rs : list NodeWithScore)
  : list NodeWithScore :=
  match rs with
  | [] => [x]
  | r :: rest =>
      if PrimFloat.ltb (score x) (score r)
      then r :: insert_ranked x rest
      else x :: r :: rest
  end.

(** The results from the highest score down; results of equal score keep
    their order. *)
Definition rank_by_score (rs : list NodeWithScore) : list NodeWithScore :=
  foldr insert_ranked [] rs.

(** An object of the pack, as the value of its class and its fields. *)
Definition instance (class : string) (fields : list (string * PyVal)) : PyVal :=
  VDict (("__class__", VStr class) :: fields).

Definition is_instance (class : string) (v : PyVal) : bool :=
  match dict_get "__class__" v with
  | Some (VStr c) => String.eqb c class
  | _ => false
  end.

(** An optional argument that was given, and not as [None]. *)
Definition supplied (v : option PyVal) : bool :=
  match v with
  | None | Some VNone => false
  | Some _ => true
  end.

(** The object an argument stands for: the object at its address, or the
    argument itself. *)
Definition value_at (st : Store) (v : PyVal) : option PyVal :=
  match v with
  | VRef l => st !! l
  | _ => Some v
  end.

(** The table of a retriever object: what its [matrix] stands for, read
    as a category table. *)
Definition table_behind (st : Store) (retriever : PyVal)
  : option CategoryTable :=
  match dict_get "matrix" retriever with
  | Some m =>
      match value_at st m with
      | Some d => table_of_dict d
      | None => None
      end
  | None => None
  end.

Section Pack.
Context {W : Type}.
(** Everything that is not the pack: the vector database, the models,
    [Settings], the vector index. *)
Variable outside : Library W.
(** The model behind the classifier and its default category. *)
Variable fitting : string -> list string -> list string.
Variable default_category : string.
(** The external index: what a query finds at a blend weight, or the
    failure the backend reports. *)
Variable search : string -> PyVal -> Res (list NodeWithScore).
(** The scoring pass of the reranker. *)
Variable rescore : string -> TextNode -> float.
(** The synthesis of an answer from a query and what was retrieved. *)
Variable synthesize : string -> list NodeWithScore -> string.

Definition rescored (q : string) (found : list NodeWithScore)
  : list NodeWithScore :=
  (fun r => {| node := node r; score := rescore q (node r) |}) <$> found.

(** Modelled from the spec: the reranker is not among the sources; the
    spec has it "a secondary scoring pass ... applied to an initial
    retrieval result set to reorder by finer-grained relevance". *)
Definition rerank (q : string) (found : list NodeWithScore)
  : list NodeWithScore :=
  rank_by_score (rescored q found).

(** Modelled from the spec: the retrieval of the pack is not among the
    sources; the spec has its control flow as "query → classify → resolve
    alpha → retrieve(query, alpha) → [rerank] → ranked results", the
    resolver failing "with a configuration error" and the failure of the
    invoker being "whatever the backend reports". *)
Definition tuned_retrieve (table : CategoryTable) (reranked : bool)
  (q : string) : Res (list NodeWithScore) :=
  match classify fitting default_category q table with
  | inl (AmbiguousQuery q') => Err (instance "AmbiguousQuery" [("query", VStr q')])
  | inr label =>
      match resolve_alpha table label with
      | inl (ConfigurationError unknown) =>
          Err (instance "ConfigurationError" [("label", VStr unknown)])
      | inr a =>
          match search q a with
          | Err exn => Err exn
          | Ok found => Ok (if reranked then rerank q found else found)
          end
      end
  end.

(** The retrieval of a retriever object: with the table its [matrix]
    stands for, reranked when it was given a reranker.  A [matrix] that is
    no table is a configuration error too. *)
Definition retrieve_results (st : Store) (retriever : PyVal) (q : string)
  : Res (list NodeWithScore) :=
  match table_behind st retriever with
  | Some table =>
      tuned_retrieve table (supplied (dict_get "reranker" retriever)) q
  | None => Err (instance "ConfigurationError" [])
  end.

Definition retrieve_outcome (st : Store) (retriever : PyVal)
  (args : list PyVal) : Outcome :=
  match args with
  | [VStr q] =>
      match retrieve_results st retriever q with
      | Ok rs => Returns (results_value rs)
      | Err exn => Raises exn
      end
  | _ => Raises (instance "TypeError" [])
  end.

Definition response_value (answer : string) (rs : list NodeWithScore) : PyVal :=
  instance "Response"
    [ ("response", VStr answer); ("source_nodes", results_value rs) ].

(** Modelled from the spec: the query engine is not among the sources; the
    spec has the notebook wrap the retrieval "in a query-engine call for
    natural-language synthesis". *)
Definition query_outcome (st : Store) (engine : PyVal) (args : list PyVal)
  : Outcome :=
  match args, dict_get "retriever" engine with
  | [VStr q], Some retriever =>
      match retrieve_results st retriever q with
      | Ok rs => Returns (response_value (synthesize q rs) rs)
      | Err exn => Raises exn
      end
  | _, _ => Raises (instance "TypeError" [])
  end.

(** Modelled from the spec: the operations of the pack answer from their
    arguments, the table and the external index and models alone; they
    leave the state of the libraries and the store as they find them.
    Every other call is left to [outside]. *)
Definition pack_lib : Library W :=
  fun op w st =>
    match op with
    | OCall callee args kwargs =>
        if String.eqb callee "LLMRerank"
        then (Returns (instance "LLMRerank" kwargs), w, st)
        else if String.eqb callee "KodaRetriever"
        then (Returns (instance "KodaRetriever" kwargs), w, st)
        else if String.eqb callee "RetrieverQueryEngine.from_args"
        then (Returns (instance "RetrieverQueryEngine" kwargs), w, st)
        else
          match String.eqb callee "str", args with
          | true, [v] =>
              match is_instance "Response" v, dict_get "response" v with
              | true, Some answer => (Returns answer, w, st)
              | _, _ => outside op w st
              end
          | _, _ => outside op w st
          end
    | OMethod self method args kwargs =>
        if String.eqb method "retrieve" && is_instance "KodaRetriever" self
        then (retrieve_outcome st self args, w, st)
        else if String.eqb method "query"
                && is_instance "RetrieverQueryEngine" self
        then (query_outcome st self args, w, st)
        else outside op w st
    | _ => outside op w st
    end.

End Pack.

(** ** The recorded run *)

(** What the pack is given from outside in a run that shows the recorded
    output: the query is found to seek a concept, the index finds the two
    films, the reranker scores them 8 and 7, and the answer is the one the
    notebook file keeps as the output of code cell 6. *)
Definition recorded_fitting : string -> list string -> list string :=
  fun _ _ => ["concept seeking query"].

Definition recorded_found : list NodeWithScore :=
  match recorded_results with
  | [park; world] =>
      [ {| node := node world; score := 0.75 |};
        {| node := node park; score := 0.5 |} ]
  | _ => []
  end.

Definition recorded_search : string -> PyVal -> Res (list NodeWithScore) :=
  fun _ _ => Ok recorded_found.

Definition recorded_rescore : string -> TextNode -> float :=
  fun _ n => if String.eqb (id_ n) "33" then 8.0%float else 7.0%float.

Definition recorded_answer : string :=
  "Jurassic Park was intended to be a theme park that featured genetically engineered dinosaurs as its main attraction. Visitors were meant to experience the thrill of seeing these creatures up close in a controlled environment. However, due to unforeseen circumstances in the movie's storyline, the dinosaurs escaped their enclosures, leading to chaos and danger for the visitors.".

Definition recorded_lib : Library nat :=
  pack_lib handles_lib recorded_fitting "concept seeking query"
    recorded_search recorded_rescore (fun _ _ => recorded_answer).

(** ** The table across the calls of the pack *)

(** The events from the first call of [name] on. *)
Fixpoint from_call (name : string) (evs : list Event) : list Event :=
  match evs with
  | [] => []
  | ev :: rest => if is_call name ev then ev :: rest else from_call name rest
  end.

(** The table is built once, at [l]; the retriever is built once, on the
    address [l]; the table is as the display built it when the constructor
    is called, and the constructor and every event after it leave it
    so. *)
Definition table_constant (l : loc) (evs : list Event) : Prop :=
  List.filter is_alloc evs = [EvAlloc l categories_display]
  ∧ (∃ ev, List.filter (is_call "KodaRetriever") evs = [ev]
           ∧ keyword "matrix" ev = Some (VRef l))
  ∧ Forall (keeps l categories_display) (from_call "KodaRetriever" evs)
  ∧ event_name <$> from_call "KodaRetriever" evs
    = [ "KodaRetriever"; ".retrieve"; "RetrieverQueryEngine.from_args";
        ".query"; "str" ].

(** Asked again in the state [e], the call answers [v] and leaves the state
    of the libraries and the store as they are in [e]. *)
Definition repeats {World : Type} (lib : Library World) (e : Env World)
  (op : Op) (v : PyVal) : Prop :=
  ends (call lib op) e
    (fun r e' => r = Ok v ∧ world e' = world e ∧ store e' = store e).

(** ** The course of a run *)

(** The names of the events of a run that reaches its end, in order: the
    statements of code cells 2 to 6 from top to bottom, the arguments of a
    call before the call. *)
Definition script : list string :=
  [ "Pinecone"; ".Index"; "OpenAI"; "Settings.llm ="; "OpenAIEmbedding";
    "Settings.embed_model ="; "PineconeVectorStore"; "Settings.embed_model";
    "VectorStoreIndex.from_vector_store"; "Settings.llm"; "LLMRerank";
    "{...}"; "Settings.llm"; "KodaRetriever"; ".retrieve";
    "RetrieverQueryEngine.from_args"; ".query"; "str" ].

(** The event is not a call that raised. *)
Definition returned (ev : Event) : bool :=
  match ev with
  | EvCall _ _ (Raises _) _ => false
  | _ => true
  end.

(** The event is a call that raised [exn]. *)
Definition raised (exn : PyVal) (ev : Event) : Prop :=
  match ev with
  | EvCall _ _ (Raises e) _ => e = exn
  | _ => False
  end.

(** What was asked of a library and what it answered. *)
Definition heard (ev : Event) : option (Op * Outcome) :=
  match ev with
  | EvCall op _ out _ => Some (op, out)
  | EvAlloc _ _ => None
  end.

Definition named (names : list string) (ev : Event) : bool :=
  existsb (String.eqb (event_name ev)) names.

(** The exchanges of a run under the given names, in order. *)
Definition heard_of (names : list string) (evs : list Event)
  : list (Op * Outcome) :=
  omap heard (List.filter (named names) evs).

(** The addresses an event hands to a library. *)
Definition event_refs (ev : Event) : gset loc :=
  match ev with
  | EvCall op _ _ _ => refs_op op
  | EvAlloc _ _ => ∅
  end.

(** The events that come before the first call of [name]. *)
Fixpoint before_call (name : string) (evs : list Event) : list Event :=
  match evs with
  | [] => []
  | ev :: rest => if is_call name ev then [] else ev :: before_call name rest
  end.

(** The vector index the retriever works on: the client is asked for the
    index [sample-movies], the vector store is built on that index with the
    text under [summary], the vector index is built from that store, and
    the retriever is given that vector index. *)
Definition index_over_sample_movies (evs : list Event) : Prop :=
  ∃ key pc index vector_store embed vector_index ev,
    heard_of [ "Pinecone"; ".Index"; "PineconeVectorStore";
               "VectorStoreIndex.from_vector_store" ] evs
    = [ (OCall "Pinecone" [] [("api_key", key)], Returns pc);
        (OMethod pc "Index" [VStr "sample-movies"] [], Returns index);
        (OCall "PineconeVectorStore" []
           [("pinecone_index", index); ("text_key", VStr "summary")],
         Returns vector_store);
        (OCall "VectorStoreIndex.from_vector_store" []
           [("vector_store", vector_store); ("embed_model", embed)],
         Returns vector_index) ]
    ∧ List.filter (is_call "KodaRetriever") evs = [ev]
    ∧ keyword "index" ev = Some vector_index.

(** The models come by way of [Settings]: each attribute is assigned what
    its constructor returned before it is read, the vector index is given
    what [Settings.embed_model] holds, the reranker what [Settings.llm]
    holds at the first reading and the retriever what it holds at the
    second. *)
Definition models_by_way_of_settings (evs : list Event) : Prop :=
  ∃ llm set_llm embed set_embed held_embed vector_store vector_index
    held_llm reranker held_again index_ matrix retriever,
    heard_of [ "OpenAI"; "Settings.llm ="; "OpenAIEmbedding";
               "Settings.embed_model ="; "Settings.embed_model";
               "VectorStoreIndex.from_vector_store"; "Settings.llm";
               "LLMRerank"; "KodaRetriever" ] evs
    = [ (OCall "OpenAI" [] [], Returns llm);
        (OSetAttr "Settings" "llm" llm, Returns set_llm);
        (OCall "OpenAIEmbedding" [] [], Returns embed);
        (OSetAttr "Settings" "embed_model" embed, Returns set_embed);
        (OGetAttr "Settings" "embed_model", Returns held_embed);
        (OCall "VectorStoreIndex.from_vector_store" []
           [("vector_store", vector_store); ("embed_model", held_embed)],
         Returns vector_index);
        (OGetAttr "Settings" "llm", Returns held_llm);
        (OCall "LLMRerank" [] [("llm", held_llm)], Returns reranker);
        (OGetAttr "Settings" "llm", Returns held_again);
        (OCall "KodaRetriever" []
           [("index", index_); ("llm", held_again); ("matrix", matrix);
            ("reranker", reranker); ("verbose", VBool true)],
         Returns retriever) ].

(** One retriever throughout: the object the constructor returned is the
    one asked to retrieve and the one the query engine is built on; the
    engine that is queried is the one built, what is shown is [str] of its
    response, and the globals are bound to these objects. *)
Definition one_retriever_throughout {World : Type}
  (r : Res Globals * Env World) : Prop :=
  ∃ kwargs retriever results engine response shown g,
    heard_of [ "KodaRetriever"; ".retrieve";
               "RetrieverQueryEngine.from_args"; ".query"; "str" ]
      (trace r.2)
    = [ (OCall "KodaRetriever" [] kwargs, Returns retriever);
        (OMethod retriever "retrieve" [VStr query_text] [], Returns results);
        (OCall "RetrieverQueryEngine.from_args" []
           [("retriever", retriever)],
         Returns engine);
        (OMethod engine "query" [VStr query_text] [], Returns response);
        (OCall "str" [response] [], Returns shown) ]
    ∧ r.1 = Ok g
    ∧ g_retriever g = retriever
    ∧ g_query g = VStr query_text
    ∧ g_results g = results
    ∧ g_query_engine g = engine
    ∧ g_response g = response
    ∧ g_shown g = shown.

(** The retriever constructor is the first call to be passed the table:
    no call before it has the address of the table among its arguments,
    and the constructor has it. *)
Definition table_first_passed_to_retriever (evs : list Event) : Prop :=
  ∃ l ev,
    List.filter is_alloc evs = [EvAlloc l categories_display]
    ∧ Forall (fun ev => l ∉ event_refs ev) (before_call "KodaRetriever" evs)
    ∧ List.filter (is_call "KodaRetriever") evs = [ev]
    ∧ l ∈ event_refs ev.

(** How a run ends: with globals after events that all returned, or with
    the exception of its last event after events that returned. *)
Definition ends_well_or_at_exception {World : Type}
  (r : Res Globals * Env World) : Prop :=
  match r.1 with
  | Ok _ => forallb returned (trace r.2) = true
  | Err exn =>
      forallb returned (removelast (trace r.2)) = true
      ∧ ∃ ev, last (trace r.2) = Some ev ∧ raised exn ev
  end.

(** * Properties *)

(** ** The store across a call *)

Lemma write_back_hidden (known : gset loc) (st st_lib : Store) (l : loc) :
  l ∉ known → write_back known st st_lib !! l = st !! l.
Proof.
  intros Hl. unfold write_back. rewrite map_lookup_imap.
  destruct (st !! l) as [v|]; simpl; [|done].
  by rewrite decide_False.
Qed.

Lemma write_back_visible (known : gset loc) (st : Store) :
  write_back known st (visible known st) = st.
Proof.
  apply map_eq. intros l. unfold write_back, visible.
  rewrite map_lookup_imap.
  destruct (st !! l) as [v|] eqn:Hv; simpl; [|done].
  case_decide as Hl; [|done].
  by rewrite (map_lookup_filter_Some_2 _ st l v Hv Hl).
Qed.

(** ** Stepping through a cell *)

Section Stepping.
Context {World : Type}.
Variable lib : Library World.

Lemma ends_ret {A : Type} (a : A) e (Q : Res A → Env World → Prop) :
  Q (Ok a) e → ends (mret a) e Q.
Proof. done. Qed.

Lemma ends_bind {A B : Type} (m : M World A) (k : A → M World B) e
  (Q : Res B → Env World → Prop) :
  ends m e (fun r e' =>
              match r with
              | Ok a => ends (k a) e' Q
              | Err exn => Q (Err exn) e'
              end) →
  ends (m ≫= k) e Q.
Proof.
  unfold ends, mbind, M_bind. destruct (m e) as [[a|exn] e']; done.
Qed.

(** A call may leave any outcome and any library state; of the store it
    leaves every object whose address it does not know. *)
Lemma ends_call (op : Op) e (Q : Res PyVal → Env World → Prop) :
  (∀ out w' st',
     (∀ l, l ∉ seen e ∪ refs_op op → st' !! l = store e !! l) →
     Q (res_of out)
       (mkEnv w' st' (seen e ∪ refs_op op ∪ refs_outcome out)
          (trace e ++ [EvCall op (store e) out st']))) →
  ends (call lib op) e Q.
Proof.
  intros HQ. unfold ends, call.
  destruct (lib op (world e) (visible (seen e ∪ refs_op op) (store e)))
    as [[out w'] st_lib].
  specialize (HQ out w' (write_back (seen e ∪ refs_op op) (store e) st_lib)).
  destruct out; apply HQ; intros l Hl; by apply write_back_hidden.
Qed.

(** A call into a library that leaves the store alone. *)
Lemma ends_call_read_only (op : Op) e (Q : Res PyVal → Env World → Prop) :
  read_only lib →
  (∀ out w',
     Q (res_of out)
       (mkEnv w' (store e) (seen e ∪ refs_op op ∪ refs_outcome out)
          (trace e ++ [EvCall op (store e) out (store e)]))) →
  ends (call lib op) e Q.
Proof.
  intros Hro HQ. unfold ends, call.
  pose proof (Hro op (world e) (visible (seen e ∪ refs_op op) (store e))) as Hst.
  destruct (lib op (world e) (visible (seen e ∪ refs_op op) (store e)))
    as [[out w'] st_lib].
  simpl in Hst. subst st_lib. rewrite write_back_visible.
  specialize (HQ out w'). by destruct out.
Qed.

Lemma ends_alloc (v : PyVal) e (Q : Res PyVal → Env World → Prop) :
  (∀ l, l ∉ dom (store e) → l ∉ seen e →
        Q (Ok (VRef l))
          (mkEnv (world e) (<[l := v]> (store e)) (seen e)
             (trace e ++ [EvAlloc l v]))) →
  ends (alloc v) e Q.
Proof.
  intros HQ. unfold ends, alloc. simpl.
  pose proof (is_fresh (dom (store e) ∪ seen e)) as Hfresh.
  apply HQ; set_solver.
Qed.

End Stepping.

Ltac step :=
  lazymatch goal with
  | |- ends (mbind _ _) _ _ => apply ends_bind
  | |- ends (call _ _) _ _ =>
      apply ends_call;
      let out := fresh "out" in
      let Hst := fresh "Hst" in
      intros out ? ? Hst; destruct out;
      cbn [world store seen] in Hst
  | |- ends (alloc _) _ _ =>
      let Hdom := fresh "Hdom" in
      let Hseen := fresh "Hseen" in
      apply ends_alloc; intros ? Hdom Hseen;
      cbn [world store seen] in Hdom, Hseen
  | |- ends (mret _) _ _ => apply ends_ret
  end;
  cbn [res_of world store seen trace app].


Ltac run_cells :=
  unfold notebook, cell_setup, cell_categories, cell_build, cell_retrieve,
    cell_query_engine;
  repeat step.

(** The same, against a library that leaves the store alone. *)
Ltac step_read_only Hro :=
  lazymatch goal with
  | |- ends (mbind _ _) _ _ => apply ends_bind
  | |- ends (call _ _) _ _ =>
      apply (ends_call_read_only _ _ _ _ Hro);
      let out := fresh "out" in
      intros out ?; destruct out
  | |- ends (alloc _) _ _ =>
      let Hdom := fresh "Hdom" in
      let Hseen := fresh "Hseen" in
      apply ends_alloc; intros ? Hdom Hseen;
      cbn [world store seen] in Hdom, Hseen
  | |- ends (mret _) _ _ => apply ends_ret
  end;
  cbn [res_of world store seen trace app].

(** ** The table and the recorded output *)

Lemma categories_keys :
  dict_keys categories_display
  = ["concept seeking query"; "fact seeking query"; "queries with misspellings"].
Proof. reflexivity. Qed.

Lemma table_of_categories :
  labels notebook_table = dict_keys categories_display
  ∧ alpha <$> notebook_table.*2 = [VFloat 0.2; VFloat 0.6; VInt 1].
Proof. split; reflexivity. Qed.

(** C2: the alpha of every entry of the table is a number of the closed
    interval from 0 to 1. *)
Theorem alphas_in_unit_interval :
  Forall (fun kv => ∃ a, dict_get "alpha" kv.2 = Some a
                         ∧ in_unit_interval a = true)
    (dict_items categories_display).
Proof.
  let items := eval cbv in (dict_items categories_display) in
  change (dict_items categories_display) with items.
  repeat (apply List.Forall_cons; [eexists; split; reflexivity|]).
  apply List.Forall_nil.
Qed.

(** The output recorded in the notebook file is a sequence of two
    (content, score) pairs with the scores 8.0 and 7.0 in this order: no
    score is followed by a larger one, and an earlier score is at least any
    later one. *)
Theorem recorded_results_ranked :
  (content_scores recorded_results).*2 = [8.0%float; 7.0%float]
  ∧ (content_scores recorded_results).*1 = (fun r => text (node r)) <$> recorded_results
  ∧ non_increasing (score <$> recorded_results) = true
  ∧ ranked (score <$> recorded_results).
Proof.
  repeat split; try reflexivity.
  intros i j x y Hij Hi Hj.
  destruct i as [|[|i]], j as [|[|j]]; simplify_eq/=; try lia; reflexivity.
Qed.

(** ** Runs of the notebook *)

Section Runs.
Context {World : Type}.
Variable environ : gmap string string.
Variable lib : Library World.
Variable w0 : World.

Lemma run_ends (Q : Res Globals → Env World → Prop) :
  ends (notebook environ lib) (mkEnv w0 ∅ ∅ []) Q →
  Q (run environ lib w0).1 (run environ lib w0).2.
Proof. done. Qed.

(** C1: the table has exactly the three categories, with alpha 0.2, 0.6
    and 1 in that order, and in a run that reaches its end the retriever is
    built once, with the address of this very table as its [matrix]. *)
Theorem retriever_built_on_categories :
  completed environ lib w0 = true →
  alphas categories_display
  = [ ("concept seeking query", Some (VFloat 0.2));
      ("fact seeking query", Some (VFloat 0.6));
      ("queries with misspellings", Some (VInt 1)) ]
  ∧ built_on_table (events environ lib w0).
Proof.
  intros Hc. split; [reflexivity|]. revert Hc.
  apply (run_ends (fun r e => is_ok r = true → built_on_table (trace e))).
  run_cells; try (intros; discriminate).
  intros _. eexists _, _. split; [reflexivity|]. split; [reflexivity|].
  cbn [store_before].
  match goal with
  | H : ∀ l, _ → ?st !! l = <[_ := _]> _ !! l |- ?st !! _ = _ => rewrite H
  end.
  - apply lookup_insert_eq.
  - cbn [refs_op]. by rewrite (right_id_L ∅ (∪)).
Qed.

(** C3: every entry of the table has an alpha and has a description
    exactly when it has examples; all three carry a description and a
    non-empty list of examples, and in a run that reaches its end the
    retriever is given no model but the stock one of [Settings.llm]. *)
Theorem entries_carry_few_shot_context :
  completed environ lib w0 = true →
  length (dict_items categories_display) = 3%nat
  ∧ Forall (fun kv => entry_wf kv.2 = true ∧ entry_few_shot kv.2 = true)
      (dict_items categories_display)
  ∧ stock_model_only (events environ lib w0).
Proof.
  intros Hc. split; [reflexivity|]. split.
  { repeat constructor. }
  revert Hc.
  apply (run_ends (fun r e => is_ok r = true → stock_model_only (trace e))).
  run_cells; try (intros; discriminate).
  intros _. unfold stock_model_only.
  eexists _, _, _, _, _, _, _, _, _, _, _.
  repeat split; reflexivity.
Qed.

(** C6: a run that reaches its end has called [retrieve] once and [query]
    once, both on the query string of the notebook. *)
Theorem one_retrieval_and_one_query :
  completed environ lib w0 = true →
  one_retrieval_one_query (events environ lib w0).
Proof.
  apply (run_ends
           (fun r e => is_ok r = true → one_retrieval_one_query (trace e))).
  run_cells; try (intros; discriminate).
  intros _. unfold one_retrieval_one_query.
  eexists _, _, _, _, _, _, _, _, _. repeat split; reflexivity.
Qed.

(** Whatever the libraries answer, and wherever the run stops, there is at
    most one call of [retrieve] and at most one of [query]. *)
Lemma at_most_one_retrieval_and_query :
  (length (List.filter (is_method "retrieve") (events environ lib w0)) ≤ 1)%nat
  ∧ (length (List.filter (is_method "query") (events environ lib w0)) ≤ 1)%nat.
Proof.
  apply (run_ends
           (fun _ e =>
              (length (List.filter (is_method "retrieve") (trace e)) ≤ 1)%nat
              ∧ (length (List.filter (is_method "query") (trace e)) ≤ 1)%nat)).
  run_cells; split; cbn; lia.
Qed.

(** C9: the first event of every run is the one call of the [Pinecone]
    constructor, and its [api_key] is what the environment holds for
    [PINECONE_API_KEY]. *)
Theorem pinecone_key_from_environment :
  key_from_environment environ (events environ lib w0).
Proof.
  apply (run_ends (fun _ e => key_from_environment environ (trace e))).
  run_cells; eexists _, _, _; split; reflexivity.
Qed.

(** Against libraries that treat what they are given as immutable, a
    run that reaches its end builds the table once, every later event
    (the reading of [Settings.llm], the retriever constructor, [retrieve],
    the query engine constructor, [query], [str]) leaves it as the display
    built it, and the store ends with the table and nothing else. *)
Theorem categories_stay_as_built :
  read_only lib →
  completed environ lib w0 = true →
  table_kept (run environ lib w0).
Proof.
  intros Hro.
  apply (run_ends (fun r e => is_ok r = true → table_kept (r, e))).
  unfold notebook, cell_setup, cell_categories, cell_build, cell_retrieve,
    cell_query_engine.
  repeat step_read_only Hro; try (intros; discriminate).
  intros _. unfold table_kept. cbn [fst snd trace store].
  eexists _. split; [reflexivity|].
  cbn [after_alloc is_alloc].
  split.
  { repeat constructor; cbn [keeps]; apply lookup_insert_eq. }
  split; [reflexivity|].
  split; [apply insert_empty | reflexivity].
Qed.

End Runs.

(** ** Particular runs *)

Lemma handles_lib_read_only : read_only handles_lib.
Proof. intros op w st. reflexivity. Qed.

Lemma retriever_built_on_categories_run :
  completed key_set handles_lib 0 = true
  ∧ alphas categories_display
    = [ ("concept seeking query", Some (VFloat 0.2));
        ("fact seeking query", Some (VFloat 0.6));
        ("queries with misspellings", Some (VInt 1)) ]
  ∧ built_on_table (events key_set handles_lib 0).
Proof.
  split; [reflexivity|].
  apply (retriever_built_on_categories key_set handles_lib 0). reflexivity.
Defined.

Lemma entries_carry_few_shot_context_run :
  completed key_set handles_lib 0 = true
  ∧ length (dict_items categories_display) = 3%nat
  ∧ Forall (fun kv => entry_wf kv.2 = true ∧ entry_few_shot kv.2 = true)
      (dict_items categories_display)
  ∧ stock_model_only (events key_set handles_lib 0).
Proof.
  split; [reflexivity|].
  apply (entries_carry_few_shot_context key_set handles_lib 0). reflexivity.
Defined.

Lemma one_retrieval_and_one_query_run :
  completed key_set handles_lib 0 = true
  ∧ one_retrieval_one_query (events key_set handles_lib 0).
Proof.
  split; [reflexivity|].
  apply (one_retrieval_and_one_query key_set handles_lib 0). reflexivity.
Defined.

(** A run that the vector database refuses stops at its first call: it
    does not reach its end, and it retrieves nothing. *)
Remark refused_run_stops :
  completed key_set refusing_lib 0 = false
  ∧ event_name <$> events key_set refusing_lib 0 = ["Pinecone"].
Proof. split; reflexivity. Qed.

(** Without a key in the environment the constructor is given [None]. *)
Remark unset_key_is_none :
  keyword "api_key" <$> List.head (events ∅ handles_lib 0) = Some (Some VNone).
Proof. reflexivity. Qed.

(** A retriever that writes to its [matrix] is not ruled out by the
    notebook: the run reaches its end, the constructor is handed the table
    as built, and leaves it empty. *)
Remark meddled_table_is_lost :
  ¬ read_only meddling_lib
  ∧ completed key_set meddling_lib 0 = true
  ∧ built_on_table (events key_set meddling_lib 0)
  ∧ store (run key_set meddling_lib 0).2 !! 0%nat = Some (VDict [])
  ∧ ¬ table_kept (run key_set meddling_lib 0).
Proof.
  split.
  { intros Hro.
    specialize (Hro (OCall "KodaRetriever" [] [("matrix", VRef 0)]) 0%nat ∅).
    apply (f_equal (fun st : Store => st !! 0%nat)) in Hro. done. }
  split; [reflexivity|]. split.
  { exists (List.nth 13 (events key_set meddling_lib 0) (EvAlloc 0 VNone)), 0%nat.
    split; [|split]; vm_compute; reflexivity. }
  split; [reflexivity|].
  intros (l & _ & _ & _ & Hst & _).
  apply (f_equal (fun st : Store => st !! 0%nat)) in Hst.
  change (store (run key_set meddling_lib 0).2 !! 0%nat)
    with (Some (VDict [])) in Hst.
  destruct (decide (l = 0%nat)) as [->|Hne].
  - rewrite lookup_singleton_eq in Hst. done.
  - rewrite lookup_singleton_ne in Hst; done.
Qed.

(** ** The alpha resolver *)

Lemma table_get_None (label : string) (table : CategoryTable) :
  label ∉ labels table → table_get label table = None.
Proof.
  induction table as [|[k entry] rest IH]; [done|].
  cbn [labels fmap list_fmap fst table_get]. intros Hnot.
  apply not_elem_of_cons in Hnot as [Hne Hrest].
  destruct (String.eqb_spec k label) as [->|_]; [done|].
  by apply IH.
Qed.

Lemma table_get_Some (label : string) (table : CategoryTable) entry :
  table_get label table = Some entry → (label, entry) ∈ table.
Proof.
  induction table as [|[k e] rest IH]; [done|].
  cbn [table_get]. destruct (String.eqb_spec k label) as [->|_].
  - intros [= ->]. apply list_elem_of_here.
  - intros Hget. apply list_elem_of_further. by apply IH.
Qed.

(** A label of the table resolves to the alpha of an entry under it. *)
Lemma resolve_alpha_known (table : CategoryTable) (label : string) :
  label ∈ labels table →
  ∃ entry, (label, entry) ∈ table ∧ resolve_alpha table label = inr (alpha entry).
Proof.
  intros Hin. unfold resolve_alpha.
  destruct (table_get label table) as [entry|] eqn:Hget.
  - exists entry. split; [by apply table_get_Some | done].
  - exfalso. induction table as [|[k e] rest IH]; [by apply elem_of_nil in Hin|].
    cbn [table_get] in Hget. destruct (String.eqb_spec k label) as [->|Hne]; [done|].
    cbn [labels fmap list_fmap fst] in Hin.
    apply elem_of_cons in Hin as [->|Hin]; [done|]. by apply IH.
Qed.

(** C7: the resolver is a function of the table and the label alone, and
    a label with no entry in the table makes it fail with a configuration
    error that names the label. *)
Theorem resolve_alpha_unknown_label (table : CategoryTable) (label : string) :
  label ∉ labels table →
  resolve_alpha table label = inl (ConfigurationError label).
Proof.
  intros Hnot. unfold resolve_alpha. by rewrite table_get_None.
Qed.

Lemma resolve_alpha_unknown_label_default :
  ("default" ∉ labels notebook_table)
  ∧ resolve_alpha notebook_table "default" = inl (ConfigurationError "default").
Proof.
  assert ("default" ∉ labels notebook_table) as Hnot.
  { apply (bool_decide_unpack _). vm_compute. exact I. }
  split; [exact Hnot|].
  apply (resolve_alpha_unknown_label notebook_table "default" Hnot).
Defined.

(** On the table of the notebook the resolver gives 0.2, 0.6 and 1. *)
Example resolve_alpha_notebook :
  (resolve_alpha notebook_table <$> labels notebook_table)
  = [inr (VFloat 0.2); inr (VFloat 0.6); inr (VInt 1)].
Proof. reflexivity. Qed.

(** ** The classifier *)

Section ClassifierFacts.
Variable fitting : string -> list string -> list string.
Variable default_category : string.

(** The classifier answers every query with a label: a label of the
    table, or the default category. *)
Lemma classify_total (query : string) (table : CategoryTable) :
  ∃ l, classify fitting default_category query table = inr l
       ∧ (l ∈ labels table ∨ l = default_category).
Proof.
  unfold classify.
  destruct (candidates fitting query table) as [|l [|l' rest]] eqn:Hc; eauto.
  exists l. split; [done|]. left.
  assert (l ∈ candidates fitting query table) as Hin
    by (rewrite Hc; apply list_elem_of_here).
  unfold candidates in Hin. by apply list_elem_of_filter in Hin as [? _].
Qed.

(** C8: on a query that does not single out one label the classifier
    returns the default category, and not an error. *)
Theorem classify_ambiguous_default (query : string) (table : CategoryTable) :
  ambiguous fitting query table = true →
  classify fitting default_category query table = inr default_category.
Proof.
  unfold ambiguous, classify.
  destruct (candidates fitting query table) as [|l [|l' rest]]; done.
Qed.

End ClassifierFacts.

Lemma classify_ambiguous_default_undecided :
  ambiguous undecided query_text notebook_table = true
  ∧ classify undecided "default" query_text notebook_table = inr "default".
Proof.
  split; [reflexivity|].
  apply (classify_ambiguous_default undecided "default" query_text notebook_table).
  reflexivity.
Defined.

(** ** The course of every run *)

Section Courses.
Context {World : Type}.
Variable environ : gmap string string.
Variable lib : Library World.
Variable w0 : World.

(** X1: the events of a run are the statements of the notebook in their
    order, up to the point where the run stops; the run reaches its end
    exactly when all eighteen have happened and none of them raised. *)
Theorem run_follows_script :
  (event_name <$> events environ lib w0) `prefix_of` script
  ∧ (completed environ lib w0 = true
     ↔ event_name <$> events environ lib w0 = script
       ∧ forallb returned (events environ lib w0) = true).
Proof.
  apply (run_ends environ lib w0
           (fun r e =>
              (event_name <$> trace e) `prefix_of` script
              ∧ (is_ok r = true
                 ↔ event_name <$> trace e = script
                   ∧ forallb returned (trace e) = true))).
  run_cells;
    (split;
     [ apply (bool_decide_unpack _); vm_compute; exact I
     | split;
       [ intros Heq; first [ discriminate Heq | split; reflexivity ]
       | intros [Hnames Hret]; vm_compute in Hnames, Hret |- *;
         first [ reflexivity | discriminate Hnames | discriminate Hret ] ] ]).
Qed.

(** X2: no exception is handled: every event before the last returned,
    and a run that does not reach its end ends with the exception that its
    last call raised. *)
Theorem run_stops_at_first_exception :
  ends_well_or_at_exception (run environ lib w0).
Proof.
  apply (run_ends environ lib w0 (fun r e => ends_well_or_at_exception (r, e))).
  run_cells; unfold ends_well_or_at_exception; cbn [fst snd trace];
    first [ reflexivity | split; [reflexivity | eexists; split; reflexivity] ].
Qed.

(** X3: in a run that reaches its end the retriever works on the vector
    index built from the vector store over the index [sample-movies] of
    the client, with the text under [summary]. *)
Theorem retriever_index_over_sample_movies :
  completed environ lib w0 = true →
  index_over_sample_movies (events environ lib w0).
Proof.
  apply (run_ends environ lib w0
           (fun r e => is_ok r = true → index_over_sample_movies (trace e))).
  run_cells; try (intros; discriminate).
  intros _. unfold index_over_sample_movies.
  eexists _, _, _, _, _, _, _. split; [reflexivity|]. split; reflexivity.
Qed.

(** X4: in a run that reaches its end every model reaches its user by way
    of [Settings], assigned before it is read. *)
Theorem models_reach_users_by_settings :
  completed environ lib w0 = true →
  models_by_way_of_settings (events environ lib w0).
Proof.
  apply (run_ends environ lib w0
           (fun r e => is_ok r = true → models_by_way_of_settings (trace e))).
  run_cells; try (intros; discriminate).
  intros _. unfold models_by_way_of_settings.
  eexists _, _, _, _, _, _, _, _, _, _, _, _, _. reflexivity.
Qed.

(** X5: in a run that reaches its end the retriever that is asked to
    retrieve, the one the query engine is built on and the one bound to
    [retriever] are the object the constructor returned; [results],
    [query_engine], [response] and what is shown are what the calls
    returned. *)
Theorem same_retriever_throughout :
  completed environ lib w0 = true →
  one_retriever_throughout (run environ lib w0).
Proof.
  apply (run_ends environ lib w0
           (fun r e => is_ok r = true → one_retriever_throughout (r, e))).
  run_cells; try (intros; discriminate).
  intros _. unfold one_retriever_throughout. cbn [fst snd trace].
  eexists _, _, _, _, _, _, _. split; [reflexivity|].
  split; [reflexivity|]. repeat split.
Qed.

(** X7: in a run that reaches its end no call before the retriever
    constructor has the address of the table among its arguments, and the
    constructor has it. *)
Theorem table_first_passed_to_the_retriever :
  completed environ lib w0 = true →
  table_first_passed_to_retriever (events environ lib w0).
Proof.
  apply (run_ends environ lib w0
           (fun r e =>
              is_ok r = true → table_first_passed_to_retriever (trace e))).
  run_cells; try (intros; discriminate).
  intros _. unfold table_first_passed_to_retriever.
  eexists _, _. split; [reflexivity|].
  cbn [before_call is_call String.eqb Ascii.eqb Bool.eqb].
  split; [|split; [reflexivity|]].
  - repeat apply List.Forall_cons; try apply List.Forall_nil;
      cbn [event_refs]; try apply not_elem_of_empty;
      match goal with
      | H : ?l ∉ _ |- ?l ∉ _ =>
          clear -H; rewrite !not_elem_of_union in H; tauto
      end.
  - cbn [event_refs refs_op refs_kwargs refs_list map snd refs union_list].
    cbn [foldr]. rewrite !elem_of_union, elem_of_singleton. tauto.
Qed.

End Courses.

Lemma retriever_index_over_sample_movies_run :
  completed key_set handles_lib 0 = true
  ∧ index_over_sample_movies (events key_set handles_lib 0).
Proof.
  split; [reflexivity|].
  apply (retriever_index_over_sample_movies key_set handles_lib 0). reflexivity.
Defined.

Lemma models_reach_users_by_settings_run :
  completed key_set handles_lib 0 = true
  ∧ models_by_way_of_settings (events key_set handles_lib 0).
Proof.
  split; [reflexivity|].
  apply (models_reach_users_by_settings key_set handles_lib 0). reflexivity.
Defined.

Lemma same_retriever_throughout_run :
  completed key_set handles_lib 0 = true
  ∧ one_retriever_throughout (run key_set handles_lib 0).
Proof.
  split; [reflexivity|].
  apply (same_retriever_throughout key_set handles_lib 0). reflexivity.
Defined.

Lemma table_first_passed_to_the_retriever_run :
  completed key_set handles_lib 0 = true
  ∧ table_first_passed_to_retriever (events key_set handles_lib 0).
Proof.
  split; [reflexivity|].
  apply (table_first_passed_to_the_retriever key_set handles_lib 0).
  reflexivity.
Defined.

(** ** Dictionary displays *)

Lemma assoc_get_app (k : string) (d1 d2 : list (string * PyVal)) :
  assoc_get k (d1 ++ d2)%list
  = match assoc_get k d1 with
    | Some v => Some v
    | None => assoc_get k d2
    end.
Proof.
  induction d1 as [|[k1 v1] d1 IH]; [done|].
  cbn [app assoc_get]. by destruct (String.eqb k1 k).
Qed.

(** A lookup after an assignment: the value assigned under the key
    assigned to, the old value under every other key. *)
Lemma assoc_get_dict_set (k k' : string) (v : PyVal) (d : list (string * PyVal)) :
  assoc_get k' (dict_set k v d)
  = if String.eqb k k' then Some v else assoc_get k' d.
Proof.
  induction d as [|[k0 v0] d IH]; cbn [dict_set assoc_get].
  - done.
  - destruct (String.eqb_spec k0 k) as [->|Hne]; cbn [assoc_get].
    + by destruct (String.eqb k k').
    + destruct (String.eqb_spec k0 k') as [->|Hne'].
      * destruct (String.eqb_spec k k') as [->|_]; done.
      * apply IH.
Qed.

Lemma dict_set_fresh (k : string) (v : PyVal) (d : list (string * PyVal)) :
  k ∉ d.*1 → dict_set k v d = (d ++ [(k, v)])%list.
Proof.
  induction d as [|[k0 v0] d IH]; [done|].
  cbn [fmap list_fmap fst dict_set app]. intros Hnot.
  apply not_elem_of_cons in Hnot as [Hne Hrest].
  destruct (String.eqb_spec k0 k) as [->|_]; [done|].
  by rewrite IH.
Qed.

Lemma dict_set_keys_nodup (k : string) (v : PyVal) (d : list (string * PyVal)) :
  NoDup d.*1 → NoDup (dict_set k v d).*1.
Proof.
  induction d as [|[k0 v0] d IH]; cbn [dict_set fmap list_fmap fst].
  - intros _. apply NoDup_singleton.
  - intros [Hk0 Hd]%NoDup_cons.
    destruct (String.eqb_spec k0 k) as [->|Hne]; cbn [fmap list_fmap fst].
    + by apply NoDup_cons.
    + apply NoDup_cons. split; [|by apply IH].
      intros Hin. apply list_elem_of_fmap in Hin as [[k1 v1] [-> Hin]].
      cbn [fst] in *. apply Hk0.
      assert (assoc_get k1 (dict_set k v d) ≠ None) as Hget.
      { clear -Hin. induction (dict_set k v d) as [|[k2 v2] d' IH'].
        - by apply elem_of_nil in Hin.
        - cbn [assoc_get]. destruct (String.eqb_spec k2 k1) as [->|Hne2]; [done|].
          apply elem_of_cons in Hin as [[= <- <-]|Hin]; [done|]. by apply IH'. }
      rewrite assoc_get_dict_set in Hget.
      destruct (String.eqb_spec k k1) as [->|_]; [done|].
      clear -Hget. induction d as [|[k2 v2] d IHd]; [done|].
      cbn [assoc_get] in Hget. cbn [fmap list_fmap fst].
      destruct (String.eqb_spec k2 k1) as [->|_].
      * apply list_elem_of_here.
      * apply list_elem_of_further. by apply IHd.
Qed.

Lemma display_fold_distinct (items acc : list (string * PyVal)) :
  NoDup (acc ++ items)%list.*1 →
  fold_left (fun d kv => dict_set kv.1 kv.2 d) items acc = (acc ++ items)%list.
Proof.
  revert acc. induction items as [|[k v] items IH]; intros acc Hnd.
  - by rewrite app_nil_r.
  - cbn [fold_left fst snd].
    assert (k ∉ acc.*1) as Hfresh.
    { rewrite fmap_app in Hnd. apply NoDup_app in Hnd as (_ & Hdisj & _).
      intros Hin. apply (Hdisj k Hin). cbn [fmap list_fmap fst].
      apply list_elem_of_here. }
    rewrite (dict_set_fresh k v acc Hfresh).
    rewrite IH; [by rewrite <- app_assoc|].
    by rewrite <- app_assoc.
Qed.

Lemma display_fold_get (k : string) (items acc : list (string * PyVal)) :
  assoc_get k (fold_left (fun d kv => dict_set kv.1 kv.2 d) items acc)
  = match assoc_get k (reverse items) with
    | Some v => Some v
    | None => assoc_get k acc
    end.
Proof.
  revert acc. induction items as [|[k0 v0] items IH]; intros acc; [done|].
  cbn [fold_left fst snd]. rewrite IH, reverse_cons, assoc_get_app.
  destruct (assoc_get k (reverse items)); [done|].
  rewrite assoc_get_dict_set. cbn [assoc_get].
  by destruct (String.eqb k0 k).
Qed.

Lemma display_fold_keys_nodup (items acc : list (string * PyVal)) :
  NoDup acc.*1 →
  NoDup (fold_left (fun d kv => dict_set kv.1 kv.2 d) items acc).*1.
Proof.
  revert acc. induction items as [|[k v] items IH]; intros acc Hnd; [done|].
  cbn [fold_left fst snd]. apply IH. by apply dict_set_keys_nodup.
Qed.

(** X8: a display whose keys are all different denotes the items as they
    are written, in the order in which they are written. *)
Theorem display_of_distinct_keys (items : list (string * PyVal)) :
  NoDup items.*1 → dict_items (dict_display items) = items.
Proof.
  intros Hnd. unfold dict_display. cbn [dict_items].
  by rewrite display_fold_distinct.
Qed.

(** X9: a lookup in a display gives the value written last under the key,
    and nothing under a key that is not written. *)
Theorem display_lookup_last_written (k : string) (items : list (string * PyVal)) :
  dict_get k (dict_display items) = assoc_get k (reverse items).
Proof.
  unfold dict_display. cbn [dict_get]. rewrite display_fold_get.
  by destruct (assoc_get k (reverse items)).
Qed.

(** X10: no key occurs twice among the keys of a display, whatever is
    written. *)
Theorem display_keys_distinct (items : list (string * PyVal)) :
  NoDup (dict_keys (dict_display items)).
Proof.
  unfold dict_keys, dict_display. cbn [dict_items].
  apply display_fold_keys_nodup. apply NoDup_nil_2.
Qed.

Lemma display_of_distinct_keys_categories :
  NoDup (dict_items categories_display).*1
  ∧ dict_items (dict_display (dict_items categories_display))
    = dict_items categories_display.
Proof.
  assert (NoDup (dict_items categories_display).*1) as Hnd.
  { apply (bool_decide_unpack _). vm_compute. exact I. }
  split; [exact Hnd|].
  apply (display_of_distinct_keys (dict_items categories_display) Hnd).
Defined.

(** ** The order of binary64 numbers *)

Lemma SFcompare_antisym (x y : SpecFloat.spec_float) :
  SpecFloat.SFcompare y x = CompOpp <$> SpecFloat.SFcompare x y.
Proof.
  destruct x as [sx|sx| |sx mx ex], y as [sy|sy| |sy my ey]; cbn;
    try reflexivity; try (by destruct sx); try (by destruct sy);
    try (by destruct sx, sy).
  destruct sx, sy; try reflexivity; f_equal;
    rewrite (Z.compare_antisym ex ey);
    destruct (ex ?= ey)%Z; cbn; try reflexivity;
    change (Pos.compare_cont Eq my mx)
      with (Pos.compare_cont (CompOpp Eq) my mx);
    rewrite <- (Pos.compare_cont_antisym mx my Eq);
    by destruct (Pos.compare_cont Eq mx my).
Qed.

Lemma ltb_leb (a b : float) :
  PrimFloat.ltb a b = true → PrimFloat.leb a b = true.
Proof.
  rewrite FloatAxioms.ltb_spec, FloatAxioms.leb_spec.
  unfold SpecFloat.SFltb, SpecFloat.SFleb.
  by destruct (SpecFloat.SFcompare _ _) as [[]|].
Qed.


(** Two numbers compare one way or the other. *)
Lemma leb_total (a b : float) :
  is_number a = true → is_number b = true →
  PrimFloat.ltb a b = false → PrimFloat.leb b a = true.
Proof.
  unfold is_number.
  rewrite FloatAxioms.ltb_spec, !FloatAxioms.leb_spec.
  unfold SpecFloat.SFltb, SpecFloat.SFleb.
  rewrite (SFcompare_antisym (FloatOps.Prim2SF a) (FloatOps.Prim2SF b)).
  intros Ha Hb.
  destruct (SpecFloat.SFcompare (FloatOps.Prim2SF a) (FloatOps.Prim2SF b))
    as [[]|] eqn:E; cbn; try done.
  intros _.
  destruct (FloatOps.Prim2SF a) as [sx|sx| |sx mx ex],
           (FloatOps.Prim2SF b) as [sy|sy| |sy my ey];
    cbn in E, Ha, Hb; try done; by destruct sx.
Qed.

(** ** Ranking *)

Lemma insert_ranked_perm (x : NodeWithScore) (rs : list NodeWithScore) :
  insert_ranked x rs ≡ₚ x :: rs.
Proof.
  induction rs as [|r rest IH]; [done|].
  cbn [insert_ranked]. destruct (PrimFloat.ltb (score x) (score r)); [|done].
  rewrite IH. apply perm_swap.
Qed.

Lemma rank_by_score_perm (rs : list NodeWithScore) : rank_by_score rs ≡ₚ rs.
Proof.
  induction rs as [|r rest IH]; [done|].
  cbn [rank_by_score foldr]. rewrite insert_ranked_perm.
  by apply perm_skip.
Qed.

(** The first result after an insertion is the one inserted or the one
    that was first. *)
Lemma insert_ranked_head (x : NodeWithScore) (rs : list NodeWithScore) :
  head (insert_ranked x rs) = Some x
  ∨ (head (insert_ranked x rs) = head rs
     ∧ ∃ r, head rs = Some r ∧ PrimFloat.ltb (score x) (score r) = true).
Proof.
  destruct rs as [|r rest]; [by left|].
  cbn [insert_ranked]. destruct (PrimFloat.ltb (score x) (score r)) eqn:E.
  - right. eauto.
  - by left.
Qed.

Lemma non_increasing_cons (x : float) (scores : list float) :
  non_increasing (x :: scores)
  = match head scores with
    | Some y => PrimFloat.leb y x && non_increasing scores
    | None => true
    end.
Proof. by destruct scores. Qed.

Lemma non_increasing_tail (x : float) (scores : list float) :
  non_increasing (x :: scores) = true → non_increasing scores = true.
Proof.
  destruct scores as [|y rest]; [done|].
  cbn [non_increasing]. by intros [_ ?]%andb_prop.
Qed.

Lemma insert_ranked_sorted (x : NodeWithScore) (rs : list NodeWithScore) :
  is_number (score x) = true →
  Forall (fun r => is_number (score r) = true) rs →
  non_increasing (score <$> rs) = true →
  non_increasing (score <$> insert_ranked x rs) = true.
Proof.
  intros Hx. induction rs as [|r rest IH]; [done|].
  intros [Hr Hrest]%Forall_cons Hsorted.
  cbn [insert_ranked]. destruct (PrimFloat.ltb (score x) (score r)) eqn:E.
  - rewrite fmap_cons in Hsorted.
    specialize (IH Hrest (non_increasing_tail _ _ Hsorted)).
    rewrite fmap_cons, non_increasing_cons.
    destruct (insert_ranked_head x rest) as [Hhead|[Hhead [r' [Hr' _]]]].
    + destruct (insert_ranked x rest) as [|h tail]; [done|].
      injection Hhead as ->. cbn [fmap list_fmap head].
      by rewrite (ltb_leb _ _ E).
    + destruct rest as [|r'' rest']; [done|]. injection Hr' as ->.
      destruct (insert_ranked x (r' :: rest')) as [|h tail]; [done|].
      injection Hhead as ->.
      cbn [fmap list_fmap head non_increasing] in Hsorted |- *.
      apply andb_prop in Hsorted as [Hle _]. by rewrite Hle.
  - rewrite fmap_cons, non_increasing_cons. cbn [fmap list_fmap head].
    by rewrite (leb_total _ _ Hx Hr E).
Qed.

(** Ranked numbers never rise. *)
Lemma rank_by_score_sorted (rs : list NodeWithScore) :
  Forall (fun r => is_number (score r) = true) rs →
  non_increasing (score <$> rank_by_score rs) = true.
Proof.
  induction rs as [|r rest IH]; [done|].
  intros [Hr Hrest]%Forall_cons. cbn [rank_by_score foldr].
  apply insert_ranked_sorted; [done| |by apply IH].
  by rewrite (rank_by_score_perm rest).
Qed.

(** ** The pack at work *)

Lemma visible_lookup (known : gset loc) (st : Store) (l : loc) :
  l ∈ known → visible known st !! l = st !! l.
Proof.
  intros Hl. unfold visible.
  destruct (st !! l) as [v|] eqn:Hv.
  - by apply map_lookup_filter_Some_2.
  - apply map_lookup_filter_None_2. by left.
Qed.

(** A value mentions the addresses that its items mention. *)
Lemma refs_dict_get (k : string) (d v : PyVal) :
  dict_get k d = Some v → refs v ⊆ refs d.
Proof.
  destruct d as [| | | | | |items| |]; try done.
  cbn [dict_get refs]. induction items as [|[k' v'] items IH]; [done|].
  cbn [assoc_get map union_list foldr]. destruct (String.eqb k' k).
  - intros [= ->]. apply union_subseteq_l.
  - intros Hget. etrans; [by apply IH|]. apply union_subseteq_r.
Qed.

Section PackFacts.
Context {W : Type}.
Variable outside : Library W.
Variable fitting : string -> list string -> list string.
Variable default_category : string.
Variable search : string -> PyVal -> Res (list NodeWithScore).
Variable rescore : string -> TextNode -> float.
Variable synthesize : string -> list NodeWithScore -> string.

Abbreviation pack :=
  (pack_lib outside fitting default_category search rescore synthesize).
Abbreviation tuned := (tuned_retrieve fitting default_category search rescore).

Lemma rescored_scores (q : string) (found : list NodeWithScore) :
  Forall (fun r => score r = rescore q (node r)) (rescored rescore q found).
Proof.
  unfold rescored. induction found as [|r rest IH]; [apply Forall_nil_2|].
  cbn [fmap list_fmap]. by apply Forall_cons_2.
Qed.

(** What the reranker returns: the nodes it was given, each with the score
    of its scoring pass. *)
Lemma rerank_scores (q : string) (found : list NodeWithScore) :
  Forall (fun r => score r = rescore q (node r)) (rerank rescore q found)
  ∧ node <$> rerank rescore q found ≡ₚ node <$> found.
Proof.
  unfold rerank. split.
  - rewrite rank_by_score_perm. apply rescored_scores.
  - rewrite rank_by_score_perm. unfold rescored.
    rewrite <- list_fmap_compose. done.
Qed.

(** What the reranker returns never rises in score, when the scores of its
    scoring pass are numbers. *)
Lemma rerank_sorted (q : string) (found : list NodeWithScore) :
  (∀ n, is_number (rescore q n) = true) →
  non_increasing (score <$> rerank rescore q found) = true.
Proof.
  intros Hnum. apply rank_by_score_sorted.
  unfold rescored. apply Forall_fmap, Forall_forall. intros r _. apply Hnum.
Qed.

(** A retrieval that succeeds went all the way: a label, its alpha, what
    the index found at this alpha, reranked. *)
Lemma tuned_retrieve_reranked (table : CategoryTable) (q : string)
  (rs : list NodeWithScore) :
  tuned table true q = Ok rs →
  ∃ label a found,
    classify fitting default_category q table = inr label
    ∧ resolve_alpha table label = inr a
    ∧ search q a = Ok found
    ∧ rs = rerank rescore q found.
Proof.
  unfold tuned_retrieve.
  destruct (classify fitting default_category q table) as [[?]|label]; [done|].
  destruct (resolve_alpha table label) as [[?]|a] eqn:Ha; [done|].
  destruct (search q a) as [found|?] eqn:Hfound; [|done].
  intros [= <-]. eauto 10.
Qed.

Lemma retrieve_results_visible (known : gset loc) (st : Store)
  (retriever : PyVal) (q : string) :
  refs retriever ⊆ known →
  retrieve_results fitting default_category search rescore
    (visible known st) retriever q
  = retrieve_results fitting default_category search rescore st retriever q.
Proof.
  intros Hknown. unfold retrieve_results, table_behind.
  destruct (dict_get "matrix" retriever) as [m|] eqn:Hm; [|done].
  destruct m; try done. cbn [value_at].
  rewrite visible_lookup; [done|].
  apply Hknown. apply (refs_dict_get _ _ _ Hm). cbn [refs].
  by apply elem_of_singleton.
Qed.

Lemma retrieve_results_table (st : Store) (retriever d : PyVal) (l : loc)
  (table : CategoryTable) (q : string) :
  dict_get "matrix" retriever = Some (VRef l) →
  st !! l = Some d →
  table_of_dict d = Some table →
  retrieve_results fitting default_category search rescore st retriever q
  = tuned table (supplied (dict_get "reranker" retriever)) q.
Proof.
  intros Hm Hl Ht. unfold retrieve_results, table_behind.
  rewrite Hm. cbn [value_at]. by rewrite Hl, Ht.
Qed.

(** A call that changes neither the state of the libraries nor the
    store. *)
Lemma ends_call_quiet (lib : Library W) (op : Op) e (out : Outcome)
  (Q : Res PyVal → Env W → Prop) :
  lib op (world e) (visible (seen e ∪ refs_op op) (store e))
  = (out, world e, visible (seen e ∪ refs_op op) (store e)) →
  Q (res_of out)
    (mkEnv (world e) (store e) (seen e ∪ refs_op op ∪ refs_outcome out)
       (trace e ++ [EvCall op (store e) out (store e)])) →
  ends (call lib op) e Q.
Proof.
  intros Hlib HQ. unfold ends, call. rewrite Hlib, write_back_visible.
  by destruct out.
Qed.

Lemma ends_construct (callee class : string)
  (kwargs : list (string * PyVal)) e (Q : Res PyVal → Env W → Prop) :
  (callee, class)
  ∈ [ ("LLMRerank", "LLMRerank"); ("KodaRetriever", "KodaRetriever");
      ("RetrieverQueryEngine.from_args", "RetrieverQueryEngine") ] →
  Q (Ok (instance class kwargs))
    (mkEnv (world e) (store e)
       (seen e ∪ refs_op (OCall callee [] kwargs)
        ∪ refs (instance class kwargs))
       (trace e
        ++ [EvCall (OCall callee [] kwargs) (store e)
              (Returns (instance class kwargs)) (store e)])) →
  ends (call pack (OCall callee [] kwargs)) e Q.
Proof.
  intros Hin HQ.
  apply (ends_call_quiet _ _ _ (Returns (instance class kwargs))); [|done].
  repeat (apply elem_of_cons in Hin as [[= -> ->]|Hin]; [reflexivity|]).
  by apply elem_of_nil in Hin.
Qed.

(** The retrieval of a retriever that holds the address of a table. *)
Lemma ends_retrieve (retriever d : PyVal) (l : loc) (table : CategoryTable)
  (q : string) e (Q : Res PyVal → Env W → Prop) :
  is_instance "KodaRetriever" retriever = true →
  dict_get "matrix" retriever = Some (VRef l) →
  store e !! l = Some d →
  table_of_dict d = Some table →
  (∀ out,
     out = match tuned table (supplied (dict_get "reranker" retriever)) q with
           | Ok rs => Returns (results_value rs)
           | Err exn => Raises exn
           end →
     Q (res_of out)
       (mkEnv (world e) (store e)
          (seen e ∪ refs_op (OMethod retriever "retrieve" [VStr q] [])
           ∪ refs_outcome out)
          (trace e
           ++ [EvCall (OMethod retriever "retrieve" [VStr q] []) (store e)
                 out (store e)]))) →
  ends (call pack (OMethod retriever "retrieve" [VStr q] [])) e Q.
Proof.
  intros Hinst Hm Hl Ht HQ.
  eapply ends_call_quiet; [|apply HQ; reflexivity].
  unfold pack_lib. cbn [String.eqb Ascii.eqb Bool.eqb andb]. rewrite Hinst.
  unfold retrieve_outcome.
  rewrite retrieve_results_visible
    by (cbn [refs_op]; apply union_subseteq_r', union_subseteq_l', union_subseteq_l).
  by rewrite (retrieve_results_table _ _ _ _ _ _ Hm Hl Ht).
Qed.

(** The query of an engine built on such a retriever. *)
Lemma ends_query (engine retriever d : PyVal) (l : loc)
  (table : CategoryTable) (q : string) e (Q : Res PyVal → Env W → Prop) :
  is_instance "RetrieverQueryEngine" engine = true →
  dict_get "retriever" engine = Some retriever →
  dict_get "matrix" retriever = Some (VRef l) →
  store e !! l = Some d →
  table_of_dict d = Some table →
  (∀ out,
     out = match tuned table (supplied (dict_get "reranker" retriever)) q with
           | Ok rs => Returns (response_value (synthesize q rs) rs)
           | Err exn => Raises exn
           end →
     Q (res_of out)
       (mkEnv (world e) (store e)
          (seen e ∪ refs_op (OMethod engine "query" [VStr q] [])
           ∪ refs_outcome out)
          (trace e
           ++ [EvCall (OMethod engine "query" [VStr q] []) (store e)
                 out (store e)]))) →
  ends (call pack (OMethod engine "query" [VStr q] [])) e Q.
Proof.
  intros Hinst Hr Hm Hl Ht HQ.
  eapply ends_call_quiet; [|apply HQ; reflexivity].
  unfold pack_lib. cbn [String.eqb Ascii.eqb Bool.eqb andb]. rewrite Hinst.
  unfold query_outcome. rewrite Hr.
  rewrite retrieve_results_visible.
  - by rewrite (retrieve_results_table _ _ _ _ _ _ Hm Hl Ht).
  - cbn [refs_op]. etrans; [apply (refs_dict_get _ _ _ Hr)|].
    apply union_subseteq_r', union_subseteq_l', union_subseteq_l.
Qed.

(** [str] of a response is its answer. *)
Lemma ends_str (answer : string) (rs : list NodeWithScore) e
  (Q : Res PyVal → Env W → Prop) :
  Q (Ok (VStr answer))
    (mkEnv (world e) (store e)
       (seen e ∪ refs_op (OCall "str" [response_value answer rs] [])
        ∪ refs (VStr answer))
       (trace e
        ++ [EvCall (OCall "str" [response_value answer rs] []) (store e)
              (Returns (VStr answer)) (store e)])) →
  ends (call pack (OCall "str" [response_value answer rs] [])) e Q.
Proof.
  intros HQ. by apply (ends_call_quiet _ _ _ (Returns (VStr answer))).
Qed.

End PackFacts.

Ltac pack_setup_step :=
  lazymatch goal with
  | |- ends (call _ (OCall "KodaRetriever" _ _)) _ _ => fail
  | |- ends (call _ (OCall "LLMRerank" [] _)) _ _ =>
      apply (ends_construct _ _ _ _ _ _ "LLMRerank" "LLMRerank");
      [ by repeat first [apply list_elem_of_here | apply list_elem_of_further] |];
      cbn [world store seen trace app]
  | _ => step
  end.

Ltac pack_membership :=
  by repeat first [apply list_elem_of_here | apply list_elem_of_further].

Ltac pack_retrieved :=
  cbn [res_of world store seen trace app supplied dict_get instance assoc_get
       String.eqb Ascii.eqb Bool.eqb];
  lazymatch goal with
  | H : tuned_retrieve _ _ _ _ ?t ?b ?q = _
    |- context [tuned_retrieve _ _ _ _ ?t ?b ?q] => rewrite H
  | |- context [tuned_retrieve ?f ?dc ?s ?rs ?t ?b ?q] =>
      let Hret := fresh "Hret" in
      destruct (tuned_retrieve f dc s rs t b q) eqn:Hret
  end.

Ltac pack_step :=
  lazymatch goal with
  | |- ends (mbind _ _) _ _ => apply ends_bind
  | |- ends (mret _) _ _ => apply ends_ret
  | |- ends (call _ (OCall "KodaRetriever" [] _)) _ _ =>
      apply (ends_construct _ _ _ _ _ _ "KodaRetriever" "KodaRetriever");
      [pack_membership|]
  | |- ends (call _ (OCall "RetrieverQueryEngine.from_args" [] _)) _ _ =>
      apply (ends_construct _ _ _ _ _ _
               "RetrieverQueryEngine.from_args" "RetrieverQueryEngine");
      [pack_membership|]
  | |- ends (call _ (OMethod _ "retrieve" _ _)) _ _ =>
      eapply (ends_retrieve _ _ _ _ _ _ _ _ _ notebook_table);
      [reflexivity | reflexivity | cbn [store]; eassumption | reflexivity |];
      intros ? ->; pack_retrieved
  | |- ends (call _ (OMethod _ "query" _ _)) _ _ =>
      eapply (ends_query _ _ _ _ _ _ _ _ _ _ notebook_table);
      [ reflexivity | reflexivity | reflexivity | cbn [store]; eassumption
      | reflexivity |];
      intros ? ->; pack_retrieved
  | |- ends (call _ (OCall "str" [response_value _ _] [])) _ _ =>
      apply ends_str
  end;
  cbn [res_of world store seen trace app].

Section PackRuns.
Context {W : Type}.
Variable outside : Library W.
Variable fitting : string -> list string -> list string.
Variable default_category : string.
Variable search : string -> PyVal -> Res (list NodeWithScore).
Variable rescore : string -> TextNode -> float.
Variable synthesize : string -> list NodeWithScore -> string.
Variable environ : gmap string string.
Variable w0 : W.

Abbreviation pack :=
  (pack_lib outside fitting default_category search rescore synthesize).
Abbreviation tuned := (tuned_retrieve fitting default_category search rescore).

Lemma pack_run_shape :
  completed environ pack w0 = true →
  ∃ g l rs,
    (run environ pack w0).1 = Ok g
    ∧ tuned notebook_table true query_text = Ok rs
    ∧ g_results g = results_value rs
    ∧ g_response g = response_value (synthesize query_text rs) rs
    ∧ g_shown g = VStr (synthesize query_text rs)
    ∧ g_query g = VStr query_text
    ∧ g_categories g = VRef l
    ∧ is_instance "KodaRetriever" (g_retriever g) = true
    ∧ dict_get "matrix" (g_retriever g) = Some (VRef l)
    ∧ supplied (dict_get "reranker" (g_retriever g)) = true
    ∧ is_instance "RetrieverQueryEngine" (g_query_engine g) = true
    ∧ dict_get "retriever" (g_query_engine g) = Some (g_retriever g)
    ∧ store (run environ pack w0).2 !! l = Some categories_display
    ∧ table_constant l (events environ pack w0)
    ∧ reranker_supplied (events environ pack w0).
Proof.
  apply (run_ends environ pack w0
    (fun r e => is_ok r = true → ∃ g l rs,
      r = Ok g
    ∧ tuned notebook_table true query_text = Ok rs
    ∧ g_results g = results_value rs
    ∧ g_response g = response_value (synthesize query_text rs) rs
    ∧ g_shown g = VStr (synthesize query_text rs)
    ∧ g_query g = VStr query_text
    ∧ g_categories g = VRef l
    ∧ is_instance "KodaRetriever" (g_retriever g) = true
    ∧ dict_get "matrix" (g_retriever g) = Some (VRef l)
    ∧ supplied (dict_get "reranker" (g_retriever g)) = true
    ∧ is_instance "RetrieverQueryEngine" (g_query_engine g) = true
    ∧ dict_get "retriever" (g_query_engine g) = Some (g_retriever g)
    ∧ store e !! l = Some categories_display
    ∧ table_constant l (trace e)
    ∧ reranker_supplied (trace e))).
  unfold notebook, cell_setup, cell_categories, cell_build, cell_retrieve,
    cell_query_engine.
  repeat pack_setup_step; try (intros; discriminate).
  match goal with
  | H : ∀ l0, _ → ?st !! l0 = <[?l := _]> _ !! l0 |- _ =>
      assert (st !! l = Some categories_display) as Htable
        by (rewrite H;
            [ apply lookup_insert_eq
            | cbn [refs_op]; by rewrite (right_id_L ∅ (∪)) ])
  end.
  repeat pack_step; try (intros; discriminate).
  intros _. eexists _, _, _.
  do 12 (split; [reflexivity|]).
  split; [cbn [store]; eassumption|].
  split.
  - unfold table_constant. split; [reflexivity|].
    split; [eexists; split; reflexivity|].
    cbn [from_call is_call String.eqb Ascii.eqb Bool.eqb].
    split; [|reflexivity].
    repeat (apply List.Forall_cons; [by split|]). apply List.Forall_nil.
  - unfold reranker_supplied. eexists _, _, _, _, _.
    split; [reflexivity|]. split; reflexivity.
Qed.

(** C4: against the pack as the spec has it, with a reranker whose scores
    are numbers, the retrieval of a run that reaches its end returns a
    sequence of (node, score) pairs that holds the nodes the index found
    and in which no score is followed by a larger one. *)
Theorem retrieval_returns_ranked_pairs :
  (∀ n, is_number (rescore query_text n) = true) →
  completed environ pack w0 = true →
  ∃ g rs a found,
    (run environ pack w0).1 = Ok g
    ∧ g_results g = results_value rs
    ∧ search query_text a = Ok found
    ∧ node <$> rs ≡ₚ node <$> found
    ∧ non_increasing (score <$> rs) = true.
Proof.
  intros Hnum Hc.
  destruct (pack_run_shape Hc) as (g & l & rs & Hg & Hret & Hres & _).
  apply tuned_retrieve_reranked in Hret
    as (label & a & found & _ & _ & Hfound & ->).
  exists g, (rerank rescore query_text found), a, found.
  split; [done|]. split; [done|]. split; [done|].
  split; [apply rerank_scores | by apply rerank_sorted].
Qed.


(** C5: against the pack as the spec has it, in a run that reaches its
    end the table is built once, the retriever is built on its address,
    and the constructor, [retrieve], the query engine constructor, [query]
    and [str] leave it as the display built it; asked again at the end of
    the run, [retrieve] and [query] give what they gave before and leave
    the state of the libraries and the store as they are. *)
Theorem table_is_static_configuration :
  completed environ pack w0 = true →
  ∃ g l,
    (run environ pack w0).1 = Ok g
    ∧ g_categories g = VRef l
    ∧ table_constant l (events environ pack w0)
    ∧ store (run environ pack w0).2 !! l = Some categories_display
    ∧ repeats pack (run environ pack w0).2
        (OMethod (g_retriever g) "retrieve" [g_query g] []) (g_results g)
    ∧ repeats pack (run environ pack w0).2
        (OMethod (g_query_engine g) "query" [g_query g] []) (g_response g).
Proof.
  intros Hc.
  destruct (pack_run_shape Hc)
    as (g & l & rs & Hg & Hret & Hres & Hresp & _ & Hq & Hcat & Hinst & Hm
        & Hrr & Hinst' & Hr & Hst & Htable & _).
  exists g, l. do 4 (split; [done|]).
  rewrite Hq, Hres, Hresp. unfold repeats. split.
  - eapply (ends_retrieve _ _ _ _ _ _ _ _ _ notebook_table);
      [done | done | exact Hst | reflexivity |].
    intros out ->. rewrite Hrr, Hret. by cbn.
  - eapply (ends_query _ _ _ _ _ _ _ _ _ _ notebook_table);
      [done | done | done | exact Hst | reflexivity |].
    intros out ->. rewrite Hrr, Hret. by cbn.
Qed.

End PackRuns.

(** ** The recorded run as a run against the pack *)

Lemma recorded_scores_numbers (q : string) (n : TextNode) :
  is_number (recorded_rescore q n) = true
  ∧ PrimFloat.ltb 1 (recorded_rescore q n) = true.
Proof. unfold recorded_rescore. by destruct (String.eqb (id_ n) "33"). Qed.

(** Against the recorded answers the run shows the recorded output: the
    two films with the scores 8.0 and 7.0, and the recorded answer. *)
Lemma recorded_run_shows_recorded_output :
  completed key_set recorded_lib 0 = true
  ∧ (g_results <$> (match (run key_set recorded_lib 0).1 with
                     | Ok g => Some g
                     | Err _ => None
                     end)
     = Some (results_value recorded_results))
  ∧ (g_shown <$> (match (run key_set recorded_lib 0).1 with
                   | Ok g => Some g
                   | Err _ => None
                   end)
     = Some (VStr recorded_answer))
  ∧ Forall (fun r => normalized (score r) = true) recorded_found.
Proof.
  split; [by vm_compute|]. split; [by vm_compute|]. split; [by vm_compute|].
  repeat constructor.
Qed.

Lemma retrieval_returns_ranked_pairs_recorded :
  (∀ n, is_number (recorded_rescore query_text n) = true)
  ∧ completed key_set recorded_lib 0 = true
  ∧ (∃ g rs a found,
       (run key_set recorded_lib 0).1 = Ok g
       ∧ g_results g = results_value rs
       ∧ recorded_search query_text a = Ok found
       ∧ node <$> rs ≡ₚ node <$> found
       ∧ non_increasing (score <$> rs) = true)
  ∧ (∃ g,
       (run key_set recorded_lib 0).1 = Ok g
       ∧ g_results g = results_value recorded_results
       ∧ score <$> recorded_results = [8.0%float; 7.0%float]).
Proof.
  split; [intros n; apply recorded_scores_numbers|].
  split; [by vm_compute|]. split.
  - apply (retrieval_returns_ranked_pairs handles_lib recorded_fitting
             "concept seeking query" recorded_search recorded_rescore
             (fun _ _ => recorded_answer) key_set 0).
    + intros n. apply recorded_scores_numbers.
    + by vm_compute.
  - eexists. split; [vm_compute; reflexivity|].
    split; vm_compute; reflexivity.
Defined.


Lemma table_is_static_configuration_recorded :
  completed key_set recorded_lib 0 = true
  ∧ ∃ g l,
      (run key_set recorded_lib 0).1 = Ok g
      ∧ g_categories g = VRef l
      ∧ table_constant l (events key_set recorded_lib 0)
      ∧ store (run key_set recorded_lib 0).2 !! l = Some categories_display
      ∧ repeats recorded_lib (run key_set recorded_lib 0).2
          (OMethod (g_retriever g) "retrieve" [g_query g] []) (g_results g)
      ∧ repeats recorded_lib (run key_set recorded_lib 0).2
          (OMethod (g_query_engine g) "query" [g_query g] []) (g_response g).
Proof.
  split; [by vm_compute|].
  apply (table_is_static_configuration handles_lib recorded_fitting
           "concept seeking query" recorded_search recorded_rescore
           (fun _ _ => recorded_answer) key_set 0).
  by vm_compute.
Defined.
